(** * WWDC Momentum Dashboard: event-relative returns and their statistics

    A shallow embedding of [src/WWDCMomentumDashboard.tsx] (v2.2, the module
    that [src/App.tsx] mounts) and of the price lookup of the earlier v2
    variant of the same component, followed by the properties of the
    backtest that the specification states.

    JavaScript numbers are IEEE-754 binary64 values.  They are modelled by
    [spec_float] with the operations of [SpecFloat] instantiated at
    precision 53 and maximal exponent 1024, which compute inside Rocq.
    What rounding is meant to achieve is said a second time in integer and
    rational arithmetic ([Exact]), and the two are compared.

    [runBacktest] is given twice: as the one step from the state it is
    called in to the state it leaves, and as it runs, from one await to the
    next, while the component takes other events.  What [Date] makes of a
    string is left to the engine by ECMAScript outside its date-time
    format; [toEpoch] therefore takes the engine's parser as an argument. *)

From Stdlib Require Import ZArith QArith List String Ascii Bool Lia.
From Stdlib Require Import DecimalString DecimalPos DecimalZ.
From Stdlib Require Import Floats.SpecFloat.
Import ListNotations.

Local Open Scope Z_scope.

(** ** JavaScript numbers *)

Module JS.

Definition number := spec_float.

Definition prec : Z := 53.
Definition emax : Z := 1024.

Definition add : number -> number -> number := SFadd prec emax.
Definition sub : number -> number -> number := SFsub prec emax.
Definition mul : number -> number -> number := SFmul prec emax.
Definition div : number -> number -> number := SFdiv prec emax.

(** [a > b] on numbers; false as soon as one side is [NaN]. *)
Definition gt (a b : number) : bool := SFltb b a.

(** [Math.sqrt]. *)
Definition sqrt : number -> number := SFsqrt prec emax.

(** [Math.pow(x, 2)].  ECMAScript fixes the result for [NaN], the
    infinities and the zeros and leaves the finite case to an
    implementation-approximated value; the correctly rounded square is
    taken for it, and it agrees with the fixed cases. *)
Definition pow2 (x : number) : number := mul x x.

(** The number denoted by an integer literal or an array length. *)
Definition ofZ (z : Z) : number := binary_normalize prec emax z 0 false.

(** The number nearest to [n / d] for integers [n >= 0] and [d > 0], signed
    by [neg]: what reading a decimal numeral yields. *)
Definition ofRatio (neg : bool) (n d : Z) : number :=
  match n with
  | Z0 => S754_zero neg
  | _ =>
      let '(mz, ez, lz) := SFdiv_core_binary prec emax n 0 d 0 in
      binary_round_aux prec emax neg mz ez lz
  end.


(** *** [Number.prototype.toFixed] followed by unary plus

    The string that [toFixed] returns is kept as the data it spells. *)
Inductive Numeral :=
| NumNaN
| NumInfinity (neg : bool)
| NumToString (x : number)           (* magnitude at least 10^21: ToString(x) *)
| NumFixed (neg : bool) (n : Z) (f : Z). (* the digits of n, f of them fractional *)

(** [m * 2^e >= 10^21], for a positive mantissa. *)
Definition atLeast1e21 (m : positive) (e : Z) : bool :=
  if 0 <=? e then 10 ^ 21 <=? Z.pos m * 2 ^ e
  else 10 ^ 21 * 2 ^ (- e) <=? Z.pos m.

(** The integer [n] for which [n / 10^f - m * 2^e] is as close to zero as
    possible, the larger one if there are two. *)
Definition nearestDigits (m : positive) (e : Z) (f : Z) : Z :=
  if 0 <=? e then Z.pos m * 2 ^ e * 10 ^ f
  else (2 * (Z.pos m * 10 ^ f) + 2 ^ (- e)) / 2 ^ (- e + 1).

Definition toFixed (x : number) (f : Z) : Numeral :=
  match x with
  | S754_nan => NumNaN
  | S754_infinity s => NumInfinity s
  | S754_zero _ => NumFixed false 0 f
  | S754_finite s m e =>
      if atLeast1e21 m e then NumToString x
      else NumFixed s (nearestDigits m e f) f
  end.

(** Unary plus on the strings [toFixed] returns. *)
Definition toNumber (s : Numeral) : number :=
  match s with
  | NumNaN => S754_nan
  | NumInfinity neg => S754_infinity neg
  | NumToString x => x
  | NumFixed neg n f => ofRatio neg n (10 ^ f)
  end.

(** [+x.toFixed(f)] *)
Definition roundTo (f : Z) (x : number) : number := toNumber (toFixed x f).

End JS.

(** ** Dates

    [new Date(t * 1000).toISOString().slice(0, 10)] for a session timestamp
    [t], an integral number of epoch seconds as the chart endpoint sends
    them. *)

Module JSDate.

(** A time value is valid within 8.64e15 milliseconds of the epoch;
    [toISOString] throws a [RangeError] on any other. *)
Definition validTime (ms : Z) : bool := Z.abs ms <=? 8640000000000000.

Definition msPerDay : Z := 86400000.

(** Day(t): the day number of a time value. *)
Definition Day (ms : Z) : Z := ms / msPerDay.

(** Year, month (1..12) and day of the month (1..31) of a day number in the
    proleptic Gregorian calendar. *)
Definition civil (day : Z) : Z * Z * Z :=
  let z := day + 719468 in
  let era := z / 146097 in
  let doe := z - era * 146097 in
  let yoe := (doe - doe / 1460 + doe / 36524 - doe / 146096) / 365 in
  let doy := doe - (365 * yoe + yoe / 4 - yoe / 100) in
  let mp := (5 * doy + 2) / 153 in
  let d := doy - (153 * mp + 2) / 5 + 1 in
  let m := if mp <? 10 then mp + 3 else mp - 9 in
  let y := yoe + era * 400 + (if m <=? 2 then 1 else 0) in
  (y, m, d).

Definition digitChar (n : Z) : ascii := ascii_of_nat (48 + Z.to_nat (n mod 10)).

(** The last [w] decimal digits of [n], zero padded. *)
Fixpoint pad (w : nat) (n : Z) : string :=
  match w with
  | O => EmptyString
  | S w' => (pad w' (n / 10) ++ String (digitChar n) EmptyString)%string
  end.

(** The year of an ISO string: four digits from 0 to 9999, otherwise a sign
    and six digits. *)
Definition isoYear (y : Z) : string :=
  if (0 <=? y) && (y <=? 9999) then pad 4 y
  else ((if (y <? 0)%Z then "-" else "+") ++ pad 6 (Z.abs y))%string.

(** The first ten characters of [s]. *)
Definition slice10 (s : string) : string := substring 0 10 s.

(** The date part of the ISO string of the instant [t] seconds after the
    epoch, cut to ten characters; [None] when the time value is invalid. *)
Definition isoDay (t : Z) : option string :=
  let ms := t * 1000 in
  if validTime ms then
    let '(y, m, d) := civil (Day ms) in
    Some (slice10 (isoYear y ++ "-" ++ pad 2 m ++ "-" ++ pad 2 d ++ "T"))%string
  else None.

(** ECMAScript's own day arithmetic, to check [civil] against:
    DayFromYear, the leap years, and the days before a month. *)
Definition DayFromYear (y : Z) : Z :=
  365 * (y - 1970) + (y - 1969) / 4 - (y - 1901) / 100 + (y - 1601) / 400.

Definition InLeapYear (y : Z) : bool :=
  ((y mod 4 =? 0) && negb (y mod 100 =? 0)) || (y mod 400 =? 0).

Definition monthLength (leap : bool) (m : Z) : Z :=
  if m =? 2 then (if leap then 29 else 28)
  else if (m =? 4) || (m =? 6) || (m =? 9) || (m =? 11) then 30 else 31.

Definition daysBefore (leap : bool) (m : Z) : Z :=
  fold_left (fun acc k => acc + monthLength leap (Z.of_nat k)) (seq 1 (Z.to_nat m - 1)) 0.

(** [day] is the day number of the date that [civil] gives it. *)
Definition civilAgrees (day : Z) : bool :=
  let '(y, m, d) := civil day in
  let leap := InLeapYear y in
  (1 <=? m) && (m <=? 12) && (1 <=? d) && (d <=? monthLength leap m)
  && (DayFromYear y + daysBefore leap m + d - 1 =? day)
  && (DayFromYear (y + 1) - DayFromYear y =? (if leap then 366 else 365)).

(** [civilAgrees] on the [n] days from [day] on. *)
Fixpoint civilAgreesFrom (day : Z) (n : nat) : bool :=
  match n with
  | O => true
  | S n' => civilAgrees day && civilAgreesFrom (day + 1) n'
  end.

End JSDate.

(** ** Exceptions

    Every failure of the component is a thrown [Error] of which only the
    message is ever observed ([e.message]). *)

Inductive Result (A : Type) : Type :=
| Ok (a : A)
| Throw (message : string).

Arguments Ok {A} a.
Arguments Throw {A} message.

Definition bind {A B : Type} (r : Result A) (k : A -> Result B) : Result B :=
  match r with
  | Ok a => k a
  | Throw m => Throw m
  end.

Notation "x <- r ;; k" := (bind r (fun x => k))
  (at level 61, r at next level, right associativity).

(** ** Data *)

Local Open Scope string_scope.
Local Open Scope list_scope.

(** [{ year, date }] *)
Record Event := { year : Z; date : string }.

(** [{ label, val }] *)
Record Offset := { label : string; val : Z }.

(** The [year] of a table row: a number for an event, a string for an
    aggregate. *)
Inductive Label :=
| YearNum (y : Z)
| YearStr (s : string).

(** [{ year, ret }] *)
Record Row := { rowYear : Label; ret : JS.number }.

Definition wwdcDates : list Event :=
  [ {| year := 2019; date := "2019-06-03" |};
    {| year := 2020; date := "2020-06-22" |};
    {| year := 2021; date := "2021-06-07" |};
    {| year := 2022; date := "2022-06-06" |};
    {| year := 2023; date := "2023-06-05" |};
    {| year := 2024; date := "2024-06-10" |} ].

Definition buyOffsets : list Offset :=
  [ {| label := "5 sessions before"; val := -5 |};
    {| label := "1 session before"; val := -1 |};
    {| label := "Open day-of"; val := 0 |} ].

Definition sellOffsets : list Offset :=
  [ {| label := "Close day-of"; val := 0 |};
    {| label := "5 sessions after"; val := 5 |};
    {| label := "20 sessions after"; val := 20 |} ].

(** *** What the chart endpoint answers

    [json?.chart?.result?.[0]] carries [timestamp] and, under
    [indicators?.quote?.[0]?.close], the closes; either may be absent, and a
    close may be [null]. *)
Record ChartResult := {
  timestamp : option (list Z);
  close : option (list (option JS.number))
}.

Inductive Body :=
| NotJson (message : string)            (* res.json() rejects *)
| Json (result : option ChartResult).   (* None: no chart.result[0] *)

Inductive Response :=
| Rejected (message : string)           (* fetch() itself rejects *)
| Http (ok : bool) (status : Z) (body : Body).

(** The request URL is computed from the date alone
    ([buildYahooChartURL]), so the provider is indexed by that date, and by
    the position of the request within the run: nothing forces two requests
    for one date to be answered alike. *)
Definition Provider := nat -> string -> Response.

(** ** The price lookup *)

Definition showZ (z : Z) : string := DecimalString.NilZero.string_of_int (Z.to_int z).

(** Message of the [RangeError] of [toISOString] on an invalid date. *)
Definition invalidTimeMessage : string := "Invalid time value".

(** Message of the [TypeError] of calling [findIndex] on [undefined]. *)
Definition noTimestampMessage : string :=
  "Cannot read properties of undefined (reading 'findIndex')".

(** [timestamp.findIndex(t => new Date(t * 1000).toISOString().slice(0, 10) === date)],
    counting from [i]. *)
Fixpoint findIndexFrom (date : string) (ts : list Z) (i : Z) : Result Z :=
  match ts with
  | [] => Ok (-1)%Z
  | t :: rest =>
      match JSDate.isoDay t with
      | None => Throw invalidTimeMessage
      | Some day => if String.eqb day date then Ok i else findIndexFrom date rest (i + 1)%Z
      end
  end.

Definition findIndex (date : string) (ts : list Z) : Result Z :=
  findIndexFrom date ts 0%Z.

(** [closes[i]] for an index already known to be an integer. *)
Definition element {A : Type} (l : list A) (i : Z) : option A :=
  if (i <? 0)%Z then None else nth_error l (Z.to_nat i).

Definition len {A : Type} (l : list A) : Z := Z.of_nat (List.length l).

(** ** The backtest

    The body of the [try] block of [runBacktest], which the two variants of
    the component share up to their [fetchOHLC]. *)

(** [+(((sellP - buyP) / buyP) * 100).toFixed(2)] *)
Definition percentReturn (buyP sellP : JS.number) : JS.number :=
  JS.roundTo 2 (JS.mul (JS.div (JS.sub sellP buyP) buyP) (JS.ofZ 100)).

(** [rows.reduce((s, r) => s + r.ret, 0) / rows.length] *)
Definition mean (rows : list Row) : JS.number :=
  JS.div (fold_left (fun s r => JS.add s (ret r)) rows (JS.ofZ 0)) (JS.ofZ (len rows)).

(** [Math.sqrt(rows.reduce((s, r) => s + Math.pow(r.ret - mean, 2), 0) / rows.length)] *)
Definition stdev (rows : list Row) : JS.number :=
  JS.sqrt
    (JS.div (fold_left (fun s r => JS.add s (JS.pow2 (JS.sub (ret r) (mean rows)))) rows (JS.ofZ 0))
            (JS.ofZ (len rows))).

(** [rows.filter((r) => r.ret > 0).length / rows.length] *)
Definition winRate (rows : list Row) : JS.number :=
  JS.div (JS.ofZ (len (filter (fun r => JS.gt (ret r) (JS.ofZ 0)) rows))) (JS.ofZ (len rows)).

(** The three rows that [setResults] receives after the event rows. *)
Definition aggregates (rows : list Row) : list Row :=
  [ {| rowYear := YearStr "Avg"; ret := JS.roundTo 2 (mean rows) |};
    {| rowYear := YearStr "StDev"; ret := JS.roundTo 2 (stdev rows) |};
    {| rowYear := YearStr "WinRate"; ret := JS.roundTo 0 (JS.mul (winRate rows) (JS.ofZ 100)) |} ].

Section Backtest.

Variable fetchOHLC : Response -> string -> Z -> Result JS.number.
Variable net : Provider.
Variables buyVal sellVal : Z.

(** The [for] loop over the events; [k] requests were made before it and
    [rows] were pushed. *)
Fixpoint collectRows (events : list Event) (k : nat) (rows : list Row)
  : Result (list Row) :=
  match events with
  | [] => Ok rows
  | ev :: rest =>
      buyP <- fetchOHLC (net k (date ev)) (date ev) buyVal ;;
      sellP <- fetchOHLC (net (S k) (date ev)) (date ev) sellVal ;;
      collectRows rest (S (S k))
        (rows ++ [ {| rowYear := YearNum (year ev); ret := percentReturn buyP sellP |} ])
  end.

(** The value handed to [setResults], unless something was thrown. *)
Definition backtest (events : list Event) : Result (list Row) :=
  rows <- collectRows events 0 [] ;;
  Ok (rows ++ aggregates rows).

End Backtest.

(** *** Component state: the five [useState] cells *)
Record State := {
  buy : Offset;
  sell : Offset;
  results : option (list Row);
  loading : bool;
  error : option string
}.

Definition setResults (v : option (list Row)) (st : State) : State :=
  {| buy := buy st; sell := sell st; results := v; loading := loading st; error := error st |}.

Definition setLoading (v : bool) (st : State) : State :=
  {| buy := buy st; sell := sell st; results := results st; loading := v; error := error st |}.

Definition setError (v : option string) (st : State) : State :=
  {| buy := buy st; sell := sell st; results := results st; loading := loading st; error := v |}.

(** The state of the component when it mounts. *)
Definition initialState : State :=
  {| buy := nth 1 buyOffsets {| label := ""; val := 0 |};
     sell := nth 0 sellOffsets {| label := ""; val := 0 |};
     results := None;
     loading := false;
     error := None |}.

Module Dashboard.

(** [const targetIdx = idx + offset;] and the range check that follows it. *)
Definition targetIdx (closes : list (option JS.number)) (idx offset : Z) : Result Z :=
  let targetIdx := (idx + offset)%Z in
  if (idx <? 0)%Z || (targetIdx <? 0)%Z || (targetIdx >=? len closes)%Z
  then Throw "Offset outside range"
  else Ok targetIdx.

(** [const price = closes[targetIdx];] and the check against [null]. *)
Definition price (closes : list (option JS.number)) (targetIdx : Z) : Result JS.number :=
  match element closes targetIdx with
  | Some (Some price) => Ok price
  | _ => Throw "Close price missing"
  end.

(** [fetchOHLC(date, offset)] of src/WWDCMomentumDashboard.tsx, on the
    answer [res] of its request. *)
Definition fetchOHLC (res : Response) (date : string) (offset : Z) : Result JS.number :=
  match res with
  | Rejected m => Throw m
  | Http ok status body =>
      if negb ok then Throw ("Network error " ++ showZ status)%string
      else
        match body with
        | NotJson m => Throw m
        | Json None => Throw "Malformed Yahoo payload"
        | Json (Some result) =>
            let closes := match close result with Some c => c | None => [] end in
            match timestamp result with
            | None => Throw noTimestampMessage
            | Some ts =>
                idx <- findIndex date ts ;;
                t <- targetIdx closes idx offset ;;
                price closes t
            end
        end
  end.

(** [runBacktest], from the state it is called in to the state it leaves. *)
Definition runBacktest (net : Provider) (st : State) : State :=
  let st1 := setError None (setLoading true st) in
  let st2 :=
    match backtest fetchOHLC net (val (buy st)) (val (sell st)) wwdcDates with
    | Ok rows => setResults (Some rows) st1
    | Throw m => setError (Some m) st1
    end in
  setLoading false st2.

End Dashboard.

Module DashboardV2.

(** [fetchOHLC(date, offset)] of the v2 variant of the component. *)
Definition fetchOHLC (res : Response) (date : string) (offset : Z) : Result JS.number :=
  match res with
  | Rejected m => Throw m
  | Http ok status body =>
      if negb ok then Throw ("Network error " ++ showZ status)%string
      else
        match body with
        | NotJson _ => Throw "Response is not valid JSON – proxy likely returned HTML"
        | Json None => Throw "Malformed Yahoo data"
        | Json (Some result) =>
            let closes := match close result with Some c => c | None => [] end in
            match timestamp result with
            | None => Throw "Price series missing"
            | Some ts =>
                if (len closes =? 0)%Z then Throw "Price series missing"
                else
                  idx <- findIndex date ts ;;
                  if (idx =? -1)%Z
                  then Throw ("Target date " ++ date ++ " not found in series")%string
                  else
                    let targetIdx := (idx + offset)%Z in
                    if (targetIdx <? 0)%Z || (targetIdx >=? len closes)%Z
                    then Throw "Offset points outside data window"
                    else
                      match element closes targetIdx with
                      | Some (Some price) => Ok price
                      | _ => Throw "Price is null/undefined"
                      end
            end
        end
  end.

(** [runBacktest] of the v2 variant: [setError(e.message || "Unknown error")]. *)
Definition runBacktest (net : Provider) (st : State) : State :=
  let st1 := setError None (setLoading true st) in
  let st2 :=
    match backtest fetchOHLC net (val (buy st)) (val (sell st)) wwdcDates with
    | Ok rows => setResults (Some rows) st1
    | Throw m => setError (Some (if String.eqb m "" then "Unknown error" else m)) st1
    end in
  setLoading false st2.

End DashboardV2.

(** ** Sample data *)

(** A series with, for each configured event, the session before it and the
    session of the event, both stamped at the market open (13:30 UTC). *)
Definition sampleTimes : list Z :=
  [ 1559309400; 1559568600;     (* 2019-05-31, 2019-06-03 *)
    1592573400; 1592832600;     (* 2020-06-19, 2020-06-22 *)
    1622813400; 1623072600;     (* 2021-06-04, 2021-06-07 *)
    1654263000; 1654522200;     (* 2022-06-03, 2022-06-06 *)
    1685712600; 1685971800;     (* 2023-06-02, 2023-06-05 *)
    1717767000; 1718026200 ]%Z. (* 2024-06-07, 2024-06-10 *)

Definition quote (z : Z) : option JS.number := Some (JS.ofZ z).

Definition sampleCloses : list (option JS.number) :=
  [ quote 100; quote 102; quote 200; quote 198; quote 50; quote 50;
    quote 80; quote 84; quote 100; quote 101; quote 200; quote 190 ].

Definition chartOf (ts : list Z) (cs : list (option JS.number)) : Response :=
  Http true 200 (Json (Some {| timestamp := Some ts; close := Some cs |})).

Definition sampleNet : Provider := fun _ _ => chartOf sampleTimes sampleCloses.

(** ** The statistics as the specification words them

    Over the plain sequence of returns, added up from left to right in the
    arithmetic of the source. *)

Module Stats.

Fixpoint total (acc : JS.number) (xs : list JS.number) : JS.number :=
  match xs with
  | [] => acc
  | x :: rest => total (JS.add acc x) rest
  end.

(** Sum of the returns divided by their number N. *)
Definition arithmeticMean (xs : list JS.number) : JS.number :=
  JS.div (total (JS.ofZ 0) xs) (JS.ofZ (len xs)).

(** Square root of the sum of squared deviations from the mean, divided
    by N. *)
Definition populationStdev (xs : list JS.number) : JS.number :=
  let mu := arithmeticMean xs in
  JS.sqrt (JS.div (total (JS.ofZ 0) (map (fun x => JS.pow2 (JS.sub x mu)) xs))
                  (JS.ofZ (len xs))).




End Stats.

(** ** Rounding in exact arithmetic

    What it is for a value to be rounded to a number of decimals, said
    with integers and rationals only, to measure the arithmetic of the
    source against.  A power of two with an exponent of either sign is
    split into a factor for each side of a comparison:
    [2^e = up e / down e]. *)

Module Exact.

Local Open Scope Z_scope.

Definition up (e : Z) : Z := 2 ^ Z.max e 0.

Definition down (e : Z) : Z := 2 ^ Z.max (- e) 0.

(** The rational number that a finite number stands for. *)
Definition value (x : JS.number) : Q :=
  match x with
  | S754_finite s m e => Qmake ((if s then -1 else 1) * Z.pos m * up e) (Z.to_pos (down e))
  | _ => 0%Q
  end.




(** The percentage return and the mean of the specification, computed
    without any rounding. *)
Definition percentReturn (entryPrice exitPrice : Q) : Q :=
  ((exitPrice - entryPrice) / entryPrice * 100)%Q.

Definition mean (xs : list Q) : Q :=
  (fold_right Qplus 0 xs / inject_Z (len xs))%Q.


End Exact.



(** ** Vocabulary of the properties *)

(** [t] is a valid session stamp of another calendar day than [date]. *)
Definition otherDay (date : string) (t : Z) : bool :=
  match JSDate.isoDay t with
  | Some day => negb (String.eqb day date)
  | None => false
  end.

(** No session of [ts] falls on [date]. *)
Definition absent (date : string) (ts : list Z) : bool := forallb (otherDay date) ts.

Section Resolution.

Variable fetchOHLC : Response -> string -> Z -> Result JS.number.
Variable net : Provider.
Variables buyVal sellVal : Z.

(** From request [k] on, the entry and the exit price of every event were
    resolved, and the rows are the observations made of them. *)
Inductive Resolved : nat -> list Event -> list Row -> Prop :=
| Resolved_nil (k : nat) : Resolved k [] []
| Resolved_cons (k : nat) (ev : Event) (events : list Event)
    (buyP sellP : JS.number) (rows : list Row) :
    fetchOHLC (net k (date ev)) (date ev) buyVal = Ok buyP ->
    fetchOHLC (net (S k) (date ev)) (date ev) sellVal = Ok sellP ->
    Resolved (S (S k)) events rows ->
    Resolved k (ev :: events)
      ({| rowYear := YearNum (year ev); ret := percentReturn buyP sellP |} :: rows).

(** Processing [ev] from request [k] fails with [m]: its entry lookup
    throws, or its exit lookup does after the entry price was resolved. *)
Definition FailsAt (k : nat) (ev : Event) (m : string) : Prop :=
  fetchOHLC (net k (date ev)) (date ev) buyVal = Throw m
  \/ (exists buyP, fetchOHLC (net k (date ev)) (date ev) buyVal = Ok buyP
                   /\ fetchOHLC (net (S k) (date ev)) (date ev) sellVal = Throw m).

End Resolution.

(** What the component renders: [{results && ...}] and [{error && ...}]. *)
Definition showsResults (st : State) : bool :=
  match results st with Some _ => true | None => false end.

Definition showsError (st : State) : bool :=
  match error st with Some m => negb (String.eqb m "") | None => false end.

(** More sample data: a zero close before the first event, a [null] close
    on it, and a provider that is unreachable. *)
Definition zeroCloses : list (option JS.number) := quote 0 :: tl sampleCloses.

Definition zeroNet : Provider := fun _ _ => chartOf sampleTimes zeroCloses.

Definition nullCloses : list (option JS.number) := quote 100 :: None :: tl (tl sampleCloses).

Definition nullNet : Provider := fun _ _ => chartOf sampleTimes nullCloses.

Definition downNet : Provider := fun _ _ => Rejected "Failed to fetch".

(** The series of the first two events only. *)
Definition shortNet : Provider :=
  fun _ _ => chartOf (firstn 4 sampleTimes) (firstn 4 sampleCloses).

(** ** The controls and the views of the component *)

Definition setBuy (v : Offset) (st : State) : State :=
  {| buy := v; sell := sell st; results := results st; loading := loading st; error := error st |}.

Definition setSell (v : Offset) (st : State) : State :=
  {| buy := buy st; sell := v; results := results st; loading := loading st; error := error st |}.

(** [offsets.find((o) => o.label === value)] *)
Definition findOffset (offsets : list Offset) (value : string) : option Offset :=
  find (fun o => String.eqb (label o) value) offsets.

(** The [onChange] handlers of the two selects.  [None]: [find] gave
    [undefined], which the handler stores all the same, and the next render
    throws on reading its [label]. *)
Definition onBuyChange (value : string) (st : State) : option State :=
  option_map (fun o => setBuy o st) (findOffset buyOffsets value).

Definition onSellChange (value : string) (st : State) : option State :=
  option_map (fun o => setSell o st) (findOffset sellOffsets value).

(** The texts of the options the selects offer. *)
Definition buyOptions : list string := map label buyOffsets.

Definition sellOptions : list string := map label sellOffsets.

(** [typeof r.year === "number"] and [typeof row.year === "string"] *)
Definition isNumber (l : Label) : bool :=
  match l with YearNum _ => true | YearStr _ => false end.

Definition isString (l : Label) : bool :=
  match l with YearNum _ => false | YearStr _ => true end.

(** The data of the bar chart: [results.filter((r) => typeof r.year === "number")]. *)
Definition chartData (rs : list Row) : list Row :=
  filter (fun r => isNumber (rowYear r)) rs.

(** The class of a table row. *)
Definition rowClass (row : Row) : string :=
  ("border-b last:border-none "
   ++ (if isString (rowYear row) then "text-slate-500" else ""))%string.

(** *** The component while a run is in flight

    [runBacktest] is asynchronous: it sets [loading], and then waits for
    the answer to one request after another, and meanwhile the component
    renders and handles other events.  The selects are never disabled; the
    button is disabled while [loading].  A run reads [buy.val] and
    [sell.val] from the closure of the render in which the button was
    pressed, whatever the selects are set to afterwards. *)
Record Run := {
  entryVal : Z;                   (* [buy.val] of the closure *)
  exitVal : Z;                    (* [sell.val] of the closure *)
  runEvents : list Event;         (* the event in process and those after it *)
  runEntry : option JS.number;    (* [buyP] of the event in process, once resolved *)
  runRows : list Row              (* the rows pushed so far *)
}.

(** The five cells and the runs that await an answer. *)
Record Component := { cells : State; inFlight : list Run }.

(** The component when it mounts. *)
Definition mounted : Component := {| cells := initialState; inFlight := [] |}.

(** The run that a press of the button starts. *)
Definition startRun (st : State) : Run :=
  {| entryVal := val (buy st); exitVal := val (sell st);
     runEvents := wwdcDates; runEntry := None; runRows := [] |}.

(** Where a run stands after an answer: at its next await, at the call of
    [setResults], or in the [catch] block. *)
Inductive Progress :=
| Continue (r : Run)
| Finished (out : list Row)
| Failed (m : string).

(** A run takes the answer [res] to the request it awaits. *)
Definition resume (r : Run) (res : Response) : Progress :=
  match runEvents r with
  | [] => Finished (runRows r ++ aggregates (runRows r))
  | ev :: rest =>
      match runEntry r with
      | None =>
          match Dashboard.fetchOHLC res (date ev) (entryVal r) with
          | Ok buyP =>
              Continue {| entryVal := entryVal r; exitVal := exitVal r;
                          runEvents := ev :: rest; runEntry := Some buyP;
                          runRows := runRows r |}
          | Throw m => Failed m
          end
      | Some buyP =>
          match Dashboard.fetchOHLC res (date ev) (exitVal r) with
          | Ok sellP =>
              let rows :=
                runRows r
                ++ [ {| rowYear := YearNum (year ev); ret := percentReturn buyP sellP |} ] in
              match rest with
              | [] => Finished (rows ++ aggregates rows)
              | _ :: _ =>
                  Continue {| entryVal := entryVal r; exitVal := exitVal r;
                              runEvents := rest; runEntry := None; runRows := rows |}
              end
          | Throw m => Failed m
          end
      end
  end.

(** What happens to the component: the user picks an entry or an exit
    offset or presses the button, or the request that run [i] awaits is
    answered. *)
Inductive Happening :=
| PickBuy (value : string)
| PickSell (value : string)
| Click
| Answer (i : nat) (res : Response).

Definition withCells (c : Component) (st : State) : Component :=
  {| cells := st; inFlight := inFlight c |}.

(** One happening.  [None]: a select handed [undefined] to its setter and
    the next render throws, or there is no run [i] to take the answer. *)
Definition happen (h : Happening) (c : Component) : option Component :=
  match h with
  | PickBuy value => option_map (withCells c) (onBuyChange value (cells c))
  | PickSell value => option_map (withCells c) (onSellChange value (cells c))
  | Click =>
      if loading (cells c) then Some c
      else Some {| cells := setError None (setLoading true (cells c));
                   inFlight := inFlight c ++ [startRun (cells c)] |}
  | Answer i res =>
      match nth_error (inFlight c) i with
      | None => None
      | Some r =>
          Some match resume r res with
               | Continue r' =>
                   {| cells := cells c;
                      inFlight := firstn i (inFlight c) ++ r' :: skipn (S i) (inFlight c) |}
               | Finished out =>
                   {| cells := setLoading false (setResults (Some out) (cells c));
                      inFlight := firstn i (inFlight c) ++ skipn (S i) (inFlight c) |}
               | Failed m =>
                   {| cells := setLoading false (setError (Some m) (cells c));
                      inFlight := firstn i (inFlight c) ++ skipn (S i) (inFlight c) |}
               end
      end
  end.

(** A sequence of happenings. *)
Fixpoint session (happenings : list Happening) (c : Component) : option Component :=
  match happenings with
  | [] => Some c
  | h :: rest =>
      match happen h c with
      | Some c' => session rest c'
      | None => None
      end
  end.

(** The provider answers, as [net] does from request [k] on, what the one
    run in flight awaits, until nothing is awaited or [fuel] answers were
    given. *)
Fixpoint settle (net : Provider) (k : nat) (fuel : nat) (c : Component)
  : option Component :=
  match fuel with
  | O => Some c
  | S fuel' =>
      match inFlight c with
      | r :: _ =>
          match runEvents r with
          | ev :: _ =>
              match happen (Answer 0 (net k (date ev))) c with
              | Some c' => settle net (S k) fuel' c'
              | None => None
              end
          | [] => Some c
          end
      | [] => Some c
      end
  end.

(** The results on display have one row per configured event, in order,
    and then the three aggregates. *)
Definition wellFormedResults (rs : option (list Row)) : Prop :=
  match rs with
  | None => True
  | Some out =>
      exists rows,
        out = rows ++ aggregates rows
        /\ map rowYear rows = map (fun ev => YearNum (year ev)) wwdcDates
  end.

(** A run in flight has an event in process, has pushed one row for each
    event before it, and has its offsets from the offered ones. *)
Definition RunOk (r : Run) : Prop :=
  runEvents r <> []
  /\ map rowYear (runRows r) ++ map (fun ev => YearNum (year ev)) (runEvents r)
     = map (fun ev => YearNum (year ev)) wwdcDates
  /\ In (entryVal r) (map val buyOffsets)
  /\ In (exitVal r) (map val sellOffsets).

(** What holds of the component between two happenings. *)
Definition Settled (c : Component) : Prop :=
  In (buy (cells c)) buyOffsets
  /\ In (sell (cells c)) sellOffsets
  /\ wellFormedResults (results (cells c))
  /\ (List.length (inFlight c) <= 1)%nat
  /\ (loading (cells c) = true <-> inFlight c <> [])
  /\ Forall RunOk (inFlight c).

(** The two lookups end alike: the same price, or a failure each. *)
Definition sameOutcome {A : Type} (r1 r2 : Result A) : Prop :=
  match r1, r2 with
  | Ok a, Ok b => a = b
  | Throw _, Throw _ => True
  | _, _ => False
  end.

(** The values a win rate over six observations can take. *)
Definition sixthsPercent : list JS.number := map JS.ofZ [0; 17; 33; 50; 67; 83; 100]%Z.

(** *** The steps of [civil]

    The year within the 400-year era of a day of the era, and the first
    day of a year of the era (years begin on 1 March). *)
Definition yearOfEra (doe : Z) : Z :=
  ((doe - doe / 1460 + doe / 36524 - doe / 146096) / 365)%Z.

Definition eraStart (k : Z) : Z := (365 * k + k / 4 - k / 100 + k / 400)%Z.

(** The first and the last day of year [k] of the era belong to it, the
    year begins 59 or 60 days after 1 January, and it lasts to the 28 or
    29 February of the next. *)
Definition yearOk (k : Z) : bool :=
  (yearOfEra (eraStart k) =? k)%Z
  && (yearOfEra (eraStart (k + 1) - 1) =? k)%Z
  && (JSDate.DayFromYear k + 59 + (if JSDate.InLeapYear k then 1 else 0)
      =? eraStart k - 719468)%Z
  && (eraStart (k + 1) - eraStart k
      =? 365 + (if JSDate.InLeapYear (k + 1) then 1 else 0))%Z.

Fixpoint yearsOkFrom (k : Z) (n : nat) : bool :=
  match n with
  | O => true
  | S n' => yearOk k && yearsOkFrom (k + 1) n'
  end.

(** A number that is not below zero: NaN, a zero, or positive. *)
Definition notNegative (x : JS.number) : bool :=
  match x with
  | S754_finite true _ _ | S754_infinity true => false
  | _ => true
  end.

(** A number whose sign bit is clear, or NaN. *)
Definition signPlus (x : JS.number) : bool :=
  match x with
  | S754_zero s | S754_infinity s | S754_finite s _ _ => negb s
  | S754_nan => true
  end.

(** ** The request of a lookup *)

(** The value of a decimal digit. *)
Definition digitVal (c : ascii) : option Z :=
  let n := Z.of_nat (nat_of_ascii c) in
  if (48 <=? n)%Z && (n <=? 57)%Z then Some (n - 48)%Z else None.

(** The day number of a calendar date (MakeDay, for a month from 1 to 12). *)
Definition dayNumber (y m d : Z) : Z :=
  (JSDate.DayFromYear y + JSDate.daysBefore (JSDate.InLeapYear y) m + d - 1)%Z.

(** A string [YYYY-MM-DD] that names a day of the calendar, as year, month
    and day. *)
Definition isoDate (s : string) : option (Z * Z * Z) :=
  match s with
  | String y1 (String y2 (String y3 (String y4 (String sep1
      (String m1 (String m2 (String sep2 (String d1 (String d2 EmptyString))))))))) =>
      match digitVal y1, digitVal y2, digitVal y3, digitVal y4,
            digitVal m1, digitVal m2, digitVal d1, digitVal d2 with
      | Some a, Some b, Some c, Some e, Some f, Some g, Some h, Some i =>
          let y := (1000 * a + 100 * b + 10 * c + e)%Z in
          let m := (10 * f + g)%Z in
          let d := (10 * h + i)%Z in
          if Ascii.eqb sep1 "-" && Ascii.eqb sep2 "-"
             && (1 <=? m)%Z && (m <=? 12)%Z
             && (1 <=? d)%Z && (d <=? JSDate.monthLength (JSDate.InLeapYear y) m)%Z
          then Some (y, m, d) else None
      | _, _, _, _, _, _, _, _ => None
      end
  | _ => None
  end.

(** No character of [s] is an ampersand. *)
Fixpoint noAmpersand (s : string) : bool :=
  match s with
  | EmptyString => true
  | String c rest => negb (Ascii.eqb c "&") && noAmpersand rest
  end.

(** [new Date(s).getTime()]: what the engine makes of the string [s], a
    time value in milliseconds, or [None] for NaN.  ECMAScript fixes it for
    the strings of its date-time format whose fields are legal, and leaves
    every other string to the engine. *)
Definition DateParser := string -> option Z.

(** What every engine does: the text [YYYY-MM-DD] of a day of the calendar
    followed by [T00:00:00Z] is the midnight that begins that day. *)
Definition followsDateTimeFormat (parse : DateParser) : Prop :=
  forall (date : string) (y m d : Z),
    isoDate date = Some (y, m, d) ->
    parse (date ++ "T00:00:00Z")%string = Some (JSDate.msPerDay * dayNumber y m d)%Z.

(** The fields of a string [YYYY-MM-DD], whether or not the month has the
    day. *)
Definition dateFields (s : string) : option (Z * Z * Z) :=
  match s with
  | String y1 (String y2 (String y3 (String y4 (String sep1
      (String m1 (String m2 (String sep2 (String d1 (String d2 EmptyString))))))))) =>
      match digitVal y1, digitVal y2, digitVal y3, digitVal y4,
            digitVal m1, digitVal m2, digitVal d1, digitVal d2 with
      | Some a, Some b, Some c, Some e, Some f, Some g, Some h, Some i =>
          if Ascii.eqb sep1 "-" && Ascii.eqb sep2 "-"
          then Some (1000 * a + 100 * b + 10 * c + e, 10 * f + g, 10 * h + i)%Z
          else None
      | _, _, _, _, _, _, _, _ => None
      end
  | _ => None
  end.

(** The part of [s] from its tenth character on. *)
Definition afterDate (s : string) : string := substring 10 (String.length s - 10) s.

(** Two sample engines, which take for unparsable every string that is not
    ten characters of a date followed by [T00:00:00Z], and part on the days
    that a month does not have.  The first, like V8, accepts any day from
    01 to 31 in every month and counts the days past the end of the month
    into the next one. *)
Definition rollingParse : DateParser :=
  fun s =>
    match dateFields (JSDate.slice10 s) with
    | Some (y, m, d) =>
        if String.eqb (afterDate s) "T00:00:00Z"
           && (1 <=? m)%Z && (m <=? 12)%Z && (1 <=? d)%Z && (d <=? 31)%Z
        then Some (JSDate.msPerDay * dayNumber y m d)%Z
        else None
    | None => None
    end.

(** The second takes a day that the month does not have for unparsable. *)
Definition strictParse : DateParser :=
  fun s =>
    match isoDate (JSDate.slice10 s) with
    | Some (y, m, d) =>
        if String.eqb (afterDate s) "T00:00:00Z"
        then Some (JSDate.msPerDay * dayNumber y m d)%Z
        else None
    | None => None
    end.

(** [toEpoch(d)]: [Math.floor(new Date(`${d}T00:00:00Z`).getTime() / 1000)],
    with [None] for NaN.  A time value is an integer of at most 8.64e15 in
    magnitude, so that the quotient, although rounded to binary64, has the
    floor of the exact one. *)
Definition toEpoch (parse : DateParser) (d : string) : option Z :=
  option_map (fun ms => ms / 1000)%Z (parse (d ++ "T00:00:00Z")%string).

(** [period1] and [period2] of [buildYahooChartURL]; NaN stays NaN. *)
Definition period1 (parse : DateParser) (date : string) : option Z :=
  option_map (fun e => e - 60 * 60 * 24 * 40)%Z (toEpoch parse date).

Definition period2 (parse : DateParser) (date : string) : option Z :=
  option_map (fun e => e + 60 * 60 * 24 * 40)%Z (toEpoch parse date).

(** A number inside a template literal: [NaN], or the digits of an integer
    below 10^21 in magnitude, as every epoch is and every epoch forty days
    from one. *)
Definition showNumber (x : option Z) : string :=
  match x with
  | Some z => showZ z
  | None => "NaN"
  end.

(** [buildYahooChartURL(date)] of src/WWDCMomentumDashboard.tsx. *)
Definition buildYahooChartURL (parse : DateParser) (date : string) : string :=
  ("/api/chart?period1=" ++ showNumber (period1 parse date)
   ++ "&period2=" ++ showNumber (period2 parse date) ++ "&interval=1d")%string.

(** * Properties *)

(** ** Rounding *)


(** ** Rounding to the nearest number

    The rounding of [SpecFloat], followed through its shifts with what is
    shifted out kept as a position between two integers, gives the number
    nearest to the exact value, the even one of two. *)

Section Rounding.

Local Open Scope Z_scope.




















(** *** [toFixed] and unary plus *)








End Rounding.

(** ** Sums over rows *)

Lemma fold_left_ret (g : JS.number -> JS.number) (rows : list Row) (acc : JS.number) :
  fold_left (fun s r => JS.add s (g (ret r))) rows acc
  = Stats.total acc (map g (map ret rows)).
Proof.
  revert acc. induction rows as [|r rows IH]; intros acc; simpl.
  - reflexivity.
  - apply IH.
Qed.

Lemma len_map {A B : Type} (g : A -> B) (l : list A) : len (map g l) = len l.
Proof. unfold len. now rewrite length_map. Qed.


Lemma mean_arithmeticMean (rows : list Row) :
  mean rows = Stats.arithmeticMean (map ret rows).
Proof.
  unfold mean, Stats.arithmeticMean.
  rewrite (fold_left_ret (fun x => x)), map_id, len_map. reflexivity.
Qed.

Lemma stdev_populationStdev (rows : list Row) :
  stdev rows = Stats.populationStdev (map ret rows).
Proof.
  unfold stdev, Stats.populationStdev.
  rewrite (fold_left_ret (fun x => JS.pow2 (JS.sub x (mean rows)))).
  rewrite mean_arithmeticMean, len_map. reflexivity.
Qed.





(** ** The percentage return *)




(** ** The price lookup *)

(** Once the session is located, the lookup is the range check followed by
    the read of the close. *)
Lemma fetchOHLC_located (ts : list Z) (closes : list (option JS.number))
    (date : string) (idx offset : Z) :
  findIndex date ts = Ok idx ->
  Dashboard.fetchOHLC (chartOf ts closes) date offset
  = (t <- Dashboard.targetIdx closes idx offset ;; Dashboard.price closes t).
Proof.
  intros Hfind. unfold Dashboard.fetchOHLC, chartOf. cbn. now rewrite Hfind.
Qed.

Lemma targetIdx_inside (closes : list (option JS.number)) (idx offset : Z) :
  (0 <= idx)%Z ->
  (0 <= idx + offset < len closes)%Z ->
  Dashboard.targetIdx closes idx offset = Ok (idx + offset)%Z.
Proof.
  intros Hidx Hrange. unfold Dashboard.targetIdx.
  destruct (idx <? 0)%Z eqn:E1; [apply Z.ltb_lt in E1; lia|].
  destruct (idx + offset <? 0)%Z eqn:E2; [apply Z.ltb_lt in E2; lia|].
  destruct (idx + offset >=? len closes)%Z eqn:E3; [apply Z.geb_le in E3; lia|].
  reflexivity.
Qed.

Lemma targetIdx_outside (closes : list (option JS.number)) (idx offset : Z) :
  (idx < 0)%Z \/ ~ (0 <= idx + offset < len closes)%Z ->
  Dashboard.targetIdx closes idx offset = Throw "Offset outside range".
Proof.
  intros H. unfold Dashboard.targetIdx.
  destruct (idx <? 0)%Z eqn:E1; [reflexivity|].
  destruct (idx + offset <? 0)%Z eqn:E2; [reflexivity|].
  destruct (idx + offset >=? len closes)%Z eqn:E3; [reflexivity|].
  apply Z.ltb_ge in E1, E2. rewrite Z.geb_leb in E3. apply Z.leb_gt in E3. lia.
Qed.

(** A price comes back only from a well-formed answer, for a date that
    has a session, at an index inside the closes, where the close is a
    number. *)
Lemma fetchOHLC_Ok_inv (res : Response) (date : string) (offset : Z) (p : JS.number) :
  Dashboard.fetchOHLC res date offset = Ok p ->
  exists (status : Z) (ts : list Z) (cs : list (option JS.number)) (idx : Z),
    res = Http true status (Json (Some {| timestamp := Some ts; close := Some cs |}))
    /\ findIndex date ts = Ok idx
    /\ (0 <= idx)%Z
    /\ (0 <= idx + offset < len cs)%Z
    /\ element cs (idx + offset) = Some (Some p).
Proof.
  unfold Dashboard.fetchOHLC. intros H.
  destruct res as [m|ok status body]; [discriminate|].
  destruct ok; [cbn [negb] in H|discriminate].
  destruct body as [m|[[tsOpt csOpt]|]]; try discriminate.
  cbn [timestamp close] in H.
  destruct tsOpt as [ts|]; [|discriminate].
  destruct (findIndex date ts) as [idx|m] eqn:Hfind; [|discriminate].
  cbn [bind] in H.
  set (closes := match csOpt with Some c => c | None => [] end) in H.
  unfold Dashboard.targetIdx in H.
  destruct (idx <? 0)%Z eqn:E1; [discriminate|].
  destruct (idx + offset <? 0)%Z eqn:E2; [discriminate|].
  destruct (idx + offset >=? len closes)%Z eqn:E3; [discriminate|].
  cbn [orb bind] in H. unfold Dashboard.price in H.
  destruct (element closes (idx + offset)) as [[q|]|] eqn:Hel; try discriminate.
  injection H as <-.
  apply Z.ltb_ge in E1, E2. rewrite Z.geb_leb in E3. apply Z.leb_gt in E3.
  destruct csOpt as [cs|].
  - exists status, ts, cs, idx. subst closes. repeat split; auto.
  - subst closes. unfold len in E3. cbn in E3. lia.
Qed.

(** C2. From a located session [idx], the target index is exactly
    [idx + offset] when that lies within [0, length) of the closes, and the
    lookup throws "Offset outside range" when it does not: no index is
    clamped.  The price [fetchOHLC] returns is read at that very index. *)
Theorem targetIdx_spec (ts : list Z) (closes : list (option JS.number))
    (date : string) (idx offset : Z) :
  findIndex date ts = Ok idx ->
  (0 <= idx)%Z ->
  ((0 <= idx + offset < len closes)%Z ->
     Dashboard.targetIdx closes idx offset = Ok (idx + offset)%Z
     /\ Dashboard.fetchOHLC (chartOf ts closes) date offset
        = Dashboard.price closes (idx + offset))
  /\ (~ (0 <= idx + offset < len closes)%Z ->
     Dashboard.targetIdx closes idx offset = Throw "Offset outside range"
     /\ Dashboard.fetchOHLC (chartOf ts closes) date offset
        = Throw "Offset outside range").
Proof.
  intros Hfind Hidx.
  pose proof (fetchOHLC_located ts closes date idx offset Hfind) as Hfetch.
  split; intros Hrange.
  - pose proof (targetIdx_inside closes idx offset Hidx Hrange) as Ht.
    split; [exact Ht|]. rewrite Hfetch, Ht. reflexivity.
  - assert (Ht : Dashboard.targetIdx closes idx offset = Throw "Offset outside range")
      by (apply targetIdx_outside; now right).
    split; [exact Ht|]. rewrite Hfetch, Ht. reflexivity.
Qed.

Lemma targetIdx_spec_witness :
  (Dashboard.targetIdx sampleCloses 1 (-1) = Ok (1 + -1)%Z
   /\ Dashboard.fetchOHLC (chartOf sampleTimes sampleCloses) "2019-06-03" (-1)
      = Dashboard.price sampleCloses (1 + -1))
  /\ (Dashboard.targetIdx sampleCloses 1 20 = Throw "Offset outside range"
      /\ Dashboard.fetchOHLC (chartOf sampleTimes sampleCloses) "2019-06-03" 20
         = Throw "Offset outside range").
Proof.
  split.
  - apply (targetIdx_spec sampleTimes sampleCloses "2019-06-03" 1 (-1));
      [reflexivity | lia | change (len sampleCloses) with 12%Z; lia].
  - apply (targetIdx_spec sampleTimes sampleCloses "2019-06-03" 1 20);
      [reflexivity | lia | change (len sampleCloses) with 12%Z; lia].
Defined.

(** ** Locating the session of a date *)

(** From 1 January 2000 to 31 December 2030, [civil] gives every day the
    date that ECMAScript's day arithmetic gives it. *)
Lemma civil_agrees_2000_2030 :
  JSDate.civilAgreesFrom 10957 (Z.to_nat 11323) = true.
Proof. vm_compute. reflexivity. Qed.

(** The sample sessions fall on the days they are meant for. *)
Lemma sampleTimes_days :
  map JSDate.isoDay sampleTimes
  = map Some [ "2019-05-31"; "2019-06-03"; "2020-06-19"; "2020-06-22";
               "2021-06-04"; "2021-06-07"; "2022-06-03"; "2022-06-06";
               "2023-06-02"; "2023-06-05"; "2024-06-07"; "2024-06-10" ].
Proof. vm_compute. reflexivity. Qed.

Lemma len_cons {A : Type} (a : A) (l : list A) : len (a :: l) = (len l + 1)%Z.
Proof. unfold len. cbn [List.length]. lia. Qed.

Lemma len_nonneg {A : Type} (l : list A) : (0 <= len l)%Z.
Proof. unfold len. lia. Qed.

Lemma findIndexFrom_absent (date : string) (ts : list Z) (i : Z) :
  absent date ts = true -> findIndexFrom date ts i = Ok (-1)%Z.
Proof.
  revert i. induction ts as [|t ts IH]; intros i H; cbn [findIndexFrom].
  - reflexivity.
  - cbn [absent forallb] in H. apply andb_prop in H as [Ht Hts].
    unfold otherDay in Ht. destruct (JSDate.isoDay t) as [day|]; [|discriminate].
    apply negb_true_iff in Ht. rewrite Ht. now apply IH.
Qed.

Lemma findIndexFrom_first (date : string) (pre : list Z) (t : Z) (post : list Z) (i : Z) :
  absent date pre = true ->
  JSDate.isoDay t = Some date ->
  findIndexFrom date (pre ++ t :: post) i = Ok (i + len pre)%Z.
Proof.
  revert i. induction pre as [|p pre IH]; intros i Hpre Ht; cbn [app findIndexFrom].
  - rewrite Ht, String.eqb_refl. f_equal. unfold len. cbn. lia.
  - cbn [absent forallb] in Hpre. apply andb_prop in Hpre as [Hp Hpre].
    unfold otherDay in Hp. destruct (JSDate.isoDay p) as [day|]; [|discriminate].
    apply negb_true_iff in Hp. rewrite Hp, IH by assumption.
    f_equal. rewrite len_cons. lia.
Qed.

Lemma findIndexFrom_inv (date : string) (ts : list Z) (i r : Z) :
  findIndexFrom date ts i = Ok r ->
  (absent date ts = true /\ r = (-1)%Z)
  \/ (exists pre t post,
        ts = pre ++ t :: post /\ absent date pre = true
        /\ JSDate.isoDay t = Some date /\ r = (i + len pre)%Z).
Proof.
  revert i. induction ts as [|t ts IH]; intros i H; cbn [findIndexFrom] in H.
  - left. split; [reflexivity|congruence].
  - destruct (JSDate.isoDay t) as [day|] eqn:Hday; [|discriminate].
    destruct (String.eqb day date) eqn:Heq.
    + right. exists [], t, ts. apply String.eqb_eq in Heq. subst day.
      repeat split; try assumption. injection H as <-. unfold len. cbn. lia.
    + destruct (IH _ H) as [[Habs ->] | (pre & t' & post & -> & Hpre & Ht' & ->)].
      * left. split; [|reflexivity]. cbn [absent forallb]. unfold otherDay at 1.
        rewrite Hday, Heq. exact Habs.
      * right. exists (t :: pre), t', post. repeat split; try assumption.
        -- cbn [absent forallb]. unfold otherDay at 1. rewrite Hday, Heq. exact Hpre.
        -- rewrite len_cons. lia.
Qed.

(** Only the calendar day of a stamp matters, not its instant. *)
Lemma isoDay_same_day (t t' : Z) :
  JSDate.validTime (t * 1000) = true ->
  JSDate.validTime (t' * 1000) = true ->
  (t / 86400 = t' / 86400)%Z ->
  JSDate.isoDay t = JSDate.isoDay t'.
Proof.
  intros Hv Hv' Hday. unfold JSDate.isoDay. rewrite Hv, Hv'.
  unfold JSDate.Day, JSDate.msPerDay.
  replace 86400000%Z with (86400 * 1000)%Z by reflexivity.
  rewrite !Z.div_mul_cancel_r by lia. now rewrite Hday.
Qed.

Lemma fetchOHLC_absent (ts : list Z) (cs : list (option JS.number))
    (date : string) (offset : Z) :
  absent date ts = true ->
  Dashboard.fetchOHLC (chartOf ts cs) date offset = Throw "Offset outside range".
Proof.
  intros H. unfold Dashboard.fetchOHLC, chartOf, findIndex. cbn.
  rewrite (findIndexFrom_absent _ _ _ H). reflexivity.
Qed.

Lemma fetchOHLC_V2_absent (ts : list Z) (cs : list (option JS.number))
    (date : string) (offset : Z) :
  absent date ts = true ->
  cs <> [] ->
  DashboardV2.fetchOHLC (chartOf ts cs) date offset
  = Throw ("Target date " ++ date ++ " not found in series")%string.
Proof.
  intros H Hcs. unfold DashboardV2.fetchOHLC, chartOf, findIndex.
  cbn [negb timestamp close].
  destruct cs as [|c cs]; [congruence|].
  rewrite len_cons.
  destruct (len cs + 1 =? 0)%Z eqn:E;
    [apply Z.eqb_eq in E; pose proof (len_nonneg cs); lia|].
  rewrite (findIndexFrom_absent _ _ _ H). reflexivity.
Qed.

(** ** The loop over the events *)

Section BacktestFacts.

Variable fetchOHLC : Response -> string -> Z -> Result JS.number.
Variables buyVal sellVal : Z.

Lemma collectRows_resolved (net : Provider) (events : list Event) :
  forall (k : nat) (rows new : list Row),
    Resolved fetchOHLC net buyVal sellVal k events new ->
    collectRows fetchOHLC net buyVal sellVal events k rows = Ok (rows ++ new).
Proof.
  induction events as [|ev events IH]; intros k rows new H; inversion H; subst;
    cbn [collectRows].
  - now rewrite app_nil_r.
  - match goal with
    | [ Hb : fetchOHLC (net k _) _ buyVal = Ok _,
        Hs : fetchOHLC (net (S k) _) _ sellVal = Ok _ |- _ ] =>
        rewrite Hb; cbn [bind]; rewrite Hs; cbn [bind]
    end.
    erewrite IH by eassumption. now rewrite <- app_assoc.
Qed.

Lemma collectRows_inv (net : Provider) (events : list Event) :
  forall (k : nat) (rows out : list Row),
    collectRows fetchOHLC net buyVal sellVal events k rows = Ok out ->
    exists new, Resolved fetchOHLC net buyVal sellVal k events new /\ out = rows ++ new.
Proof.
  induction events as [|ev events IH]; intros k rows out H; cbn [collectRows] in H.
  - injection H as <-. exists []. split; [constructor|now rewrite app_nil_r].
  - destruct (fetchOHLC (net k (date ev)) (date ev) buyVal) as [buyP|] eqn:Hb;
      [|discriminate].
    cbn [bind] in H.
    destruct (fetchOHLC (net (S k) (date ev)) (date ev) sellVal) as [sellP|] eqn:Hs;
      [|discriminate].
    cbn [bind] in H. apply IH in H as (new & Hnew & ->).
    eexists. split; [econstructor; eassumption|]. now rewrite <- app_assoc.
Qed.

Lemma collectRows_abort (net : Provider) (pre : list Event) :
  forall (k : nat) (rows new : list Row) (ev : Event) (post : list Event) (m : string),
    Resolved fetchOHLC net buyVal sellVal k pre new ->
    FailsAt fetchOHLC net buyVal sellVal (k + 2 * List.length pre) ev m ->
    collectRows fetchOHLC net buyVal sellVal (pre ++ ev :: post) k rows = Throw m.
Proof.
  induction pre as [|p pre IH]; intros k rows new ev post m H Hfail; inversion H; subst;
    cbn [app collectRows].
  - cbn [List.length] in Hfail. rewrite Nat.mul_0_r, Nat.add_0_r in Hfail.
    destruct Hfail as [Hb | (buyP & Hb & Hs)].
    + now rewrite Hb.
    + rewrite Hb. cbn [bind]. now rewrite Hs.
  - match goal with
    | [ Hb : fetchOHLC (net k _) _ buyVal = Ok _,
        Hs : fetchOHLC (net (S k) _) _ sellVal = Ok _ |- _ ] =>
        rewrite Hb; cbn [bind]; rewrite Hs; cbn [bind]
    end.
    eapply IH; [eassumption|].
    replace (S (S k) + 2 * List.length pre)%nat
      with (k + 2 * List.length (p :: pre))%nat by (cbn [List.length]; lia).
    exact Hfail.
Qed.

Lemma collectRows_ext (net1 net2 : Provider) (events : list Event) :
  forall (k : nat) (rows : list Row),
    (forall (j : nat) (ev : Event), In ev events -> net1 j (date ev) = net2 j (date ev)) ->
    collectRows fetchOHLC net1 buyVal sellVal events k rows
    = collectRows fetchOHLC net2 buyVal sellVal events k rows.
Proof.
  induction events as [|ev events IH]; intros k rows H; cbn [collectRows].
  - reflexivity.
  - rewrite !(H _ ev (or_introl eq_refl)).
    destruct (fetchOHLC (net2 k (date ev)) (date ev) buyVal); [|reflexivity].
    cbn [bind].
    destruct (fetchOHLC (net2 (S k) (date ev)) (date ev) sellVal); [|reflexivity].
    cbn [bind]. apply IH. intros j ev' Hin. apply H. now right.
Qed.

Lemma Resolved_years (net : Provider) (events : list Event) (k : nat) (rows : list Row) :
  Resolved fetchOHLC net buyVal sellVal k events rows ->
  map rowYear rows = map (fun ev => YearNum (year ev)) events.
Proof.
  induction 1; cbn [map rowYear]; [reflexivity|]. now f_equal.
Qed.

Lemma Resolved_nth (net : Provider) (events : list Event) (k : nat) (rows : list Row) :
  Resolved fetchOHLC net buyVal sellVal k events rows ->
  forall (i : nat) (ev : Event),
    nth_error events i = Some ev ->
    exists buyP sellP,
      fetchOHLC (net (k + 2 * i)%nat (date ev)) (date ev) buyVal = Ok buyP
      /\ fetchOHLC (net (S (k + 2 * i)) (date ev)) (date ev) sellVal = Ok sellP
      /\ nth_error rows i
         = Some {| rowYear := YearNum (year ev); ret := percentReturn buyP sellP |}.
Proof.
  induction 1 as [k | k ev0 events buyP sellP rows Hb Hs Hrest IH]; intros i ev Hi.
  - destruct i; discriminate.
  - destruct i as [|i]; cbn [nth_error] in *.
    + injection Hi as <-. exists buyP, sellP.
      rewrite Nat.mul_0_r, Nat.add_0_r. auto.
    + destruct (IH i ev Hi) as (bp & sp & H1 & H2 & H3).
      exists bp, sp.
      replace (k + 2 * S i)%nat with (S (S k) + 2 * i)%nat by lia. auto.
Qed.

Lemma Resolved_length (net : Provider) (events : list Event) (k : nat) (rows : list Row) :
  Resolved fetchOHLC net buyVal sellVal k events rows ->
  List.length rows = List.length events.
Proof. induction 1; cbn [List.length]; congruence. Qed.

Lemma backtest_inv (net : Provider) (events : list Event) (out : list Row) :
  backtest fetchOHLC net buyVal sellVal events = Ok out ->
  exists rows,
    Resolved fetchOHLC net buyVal sellVal 0 events rows /\ out = rows ++ aggregates rows.
Proof.
  unfold backtest. intros H.
  destruct (collectRows fetchOHLC net buyVal sellVal events 0 []) as [rows|] eqn:Hc;
    [|discriminate].
  cbn [bind] in H. injection H as <-.
  apply collectRows_inv in Hc as (new & Hnew & ->). now exists new.
Qed.

Lemma backtest_abort (net : Provider) (pre : list Event) (rows : list Row)
    (ev : Event) (post : list Event) (m : string) :
  Resolved fetchOHLC net buyVal sellVal 0 pre rows ->
  FailsAt fetchOHLC net buyVal sellVal (2 * List.length pre) ev m ->
  backtest fetchOHLC net buyVal sellVal (pre ++ ev :: post) = Throw m.
Proof.
  intros H Hfail. unfold backtest.
  erewrite collectRows_abort; [reflexivity|eassumption|exact Hfail].
Qed.

Lemma backtest_fails (net : Provider) (events : list Event) (i : nat) (ev : Event)
    (m : string) :
  nth_error events i = Some ev ->
  FailsAt fetchOHLC net buyVal sellVal (2 * i) ev m ->
  exists m', backtest fetchOHLC net buyVal sellVal events = Throw m'.
Proof.
  intros Hi Hfail.
  destruct (backtest fetchOHLC net buyVal sellVal events) as [out|m'] eqn:Hrun;
    [|now exists m'].
  exfalso. apply backtest_inv in Hrun as (rows & Hrows & _).
  destruct (Resolved_nth net events 0 rows Hrows i ev Hi) as (bp & sp & Hb & Hs & _).
  cbn [Nat.add] in Hb, Hs.
  destruct Hfail as [Hb' | (bp' & _ & Hs')]; congruence.
Qed.

End BacktestFacts.

(** ** What a run does to the state *)

Lemma runBacktest_thrown (net : Provider) (st : State) (m : string) :
  backtest Dashboard.fetchOHLC net (val (buy st)) (val (sell st)) wwdcDates = Throw m ->
  Dashboard.runBacktest net st
  = {| buy := buy st; sell := sell st; results := results st;
       loading := false; error := Some m |}.
Proof. intros H. unfold Dashboard.runBacktest. rewrite H. reflexivity. Qed.

Lemma runBacktest_V2_thrown (net : Provider) (st : State) (m : string) :
  backtest DashboardV2.fetchOHLC net (val (buy st)) (val (sell st)) wwdcDates = Throw m ->
  results (DashboardV2.runBacktest net st) = results st
  /\ exists m', error (DashboardV2.runBacktest net st) = Some m'.
Proof.
  intros H. unfold DashboardV2.runBacktest. rewrite H. split; [reflexivity|].
  eexists. reflexivity.
Qed.

Lemma runBacktest_returned(net : Provider) (st : State) (out : list Row) :
  backtest Dashboard.fetchOHLC net (val (buy st)) (val (sell st)) wwdcDates = Ok out ->
  Dashboard.runBacktest net st
  = {| buy := buy st; sell := sell st; results := Some out;
       loading := false; error := None |}.
Proof. intros H. unfold Dashboard.runBacktest. rewrite H. reflexivity. Qed.

(** ** A date that is not in the series *)

(** C3, as the claim states it, fails on the mounted component: a date
    without a session and an offset that leaves the series throw one and
    the same error, so the former is not told apart. *)
Lemma dateNotInSeries_not_distinct :
  let absentDate := Dashboard.fetchOHLC (chartOf sampleTimes sampleCloses) "2019-06-04" 0 in
  let offsetOut := Dashboard.fetchOHLC (chartOf sampleTimes sampleCloses) "2019-06-03" 20 in
  absent "2019-06-04" sampleTimes = true
  /\ findIndex "2019-06-03" sampleTimes = Ok 1%Z
  /\ absentDate = Throw "Offset outside range"
  /\ absentDate = offsetOut.
Proof. vm_compute. repeat split. Qed.

(** C3, amended.  The session of a date is the first one whose UTC calendar
    day equals it, whatever its instant within the day.  When no session
    falls on the date, the lookup of the mounted component throws
    "Offset outside range", the error it also has for offsets that leave
    the series, and the lookup of the v2 variant throws its own
    "Target date ... not found in series"; either way a run that meets such
    an event throws that error, and the stored results are not replaced. *)
Theorem locate_spec :
  (forall (date : string) (pre : list Z) (t : Z) (post : list Z),
     absent date pre = true ->
     JSDate.isoDay t = Some date ->
     findIndex date (pre ++ t :: post) = Ok (len pre))
  /\ (forall t t' : Z,
        JSDate.validTime (t * 1000) = true ->
        JSDate.validTime (t' * 1000) = true ->
        (t / 86400 = t' / 86400)%Z ->
        JSDate.isoDay t = JSDate.isoDay t')
  /\ (forall (ts : list Z) (cs : list (option JS.number)) (date : string) (offset : Z),
        absent date ts = true ->
        Dashboard.fetchOHLC (chartOf ts cs) date offset = Throw "Offset outside range"
        /\ (cs <> [] ->
            DashboardV2.fetchOHLC (chartOf ts cs) date offset
            = Throw ("Target date " ++ date ++ " not found in series")%string))
  /\ (forall (net : Provider) (b s : Z) (pre : list Event) (rows : list Row)
             (ev : Event) (post : list Event) (ts : list Z) (cs : list (option JS.number)),
        Resolved Dashboard.fetchOHLC net b s 0 pre rows ->
        net (2 * List.length pre)%nat (date ev) = chartOf ts cs ->
        absent (date ev) ts = true ->
        backtest Dashboard.fetchOHLC net b s (pre ++ ev :: post)
        = Throw "Offset outside range")
  /\ (forall (net : Provider) (b s : Z) (pre : list Event) (rows : list Row)
             (ev : Event) (post : list Event) (ts : list Z) (cs : list (option JS.number)),
        Resolved DashboardV2.fetchOHLC net b s 0 pre rows ->
        net (2 * List.length pre)%nat (date ev) = chartOf ts cs ->
        absent (date ev) ts = true ->
        cs <> [] ->
        backtest DashboardV2.fetchOHLC net b s (pre ++ ev :: post)
        = Throw ("Target date " ++ date ev ++ " not found in series")%string)
  /\ (forall (net : Provider) (st : State) (m : string),
        backtest Dashboard.fetchOHLC net (val (buy st)) (val (sell st)) wwdcDates = Throw m ->
        results (Dashboard.runBacktest net st) = results st
        /\ error (Dashboard.runBacktest net st) = Some m)
  /\ (forall (net : Provider) (st : State) (m : string),
        backtest DashboardV2.fetchOHLC net (val (buy st)) (val (sell st)) wwdcDates = Throw m ->
        results (DashboardV2.runBacktest net st) = results st
        /\ exists m', error (DashboardV2.runBacktest net st) = Some m').
Proof.
  repeat apply conj; [| | | | | | exact runBacktest_V2_thrown].
  - intros date pre t post Hpre Ht. unfold findIndex.
    now rewrite (findIndexFrom_first date pre t post 0 Hpre Ht).
  - exact isoDay_same_day.
  - intros ts cs date offset H. split.
    + now apply fetchOHLC_absent.
    + intros Hcs. now apply fetchOHLC_V2_absent.
  - intros net b s pre rows ev post ts cs Hpre Hnet Habs.
    eapply backtest_abort; [exact Hpre|]. left. rewrite Hnet.
    now apply fetchOHLC_absent.
  - intros net b s pre rows ev post ts cs Hpre Hnet Habs Hcs.
    eapply backtest_abort; [exact Hpre|]. left. rewrite Hnet.
    now apply fetchOHLC_V2_absent.
  - intros net st m H. now rewrite (runBacktest_thrown net st m H).
Qed.

Lemma locate_spec_witness :
  findIndex "2019-06-03" ([1559309400%Z] ++ 1559568600%Z :: [1592573400%Z]) = Ok 1%Z
  /\ JSDate.isoDay 1559520000 = JSDate.isoDay 1559568600
  /\ Dashboard.fetchOHLC (chartOf sampleTimes sampleCloses) "2019-06-04" 5
     = Throw "Offset outside range"
  /\ DashboardV2.fetchOHLC (chartOf sampleTimes sampleCloses) "2019-06-04" 5
     = Throw "Target date 2019-06-04 not found in series"
  /\ backtest Dashboard.fetchOHLC shortNet (-1) 0 (firstn 2 wwdcDates ++ nth 2 wwdcDates (Build_Event 0 "") :: skipn 3 wwdcDates)
     = Throw "Offset outside range"
  /\ backtest DashboardV2.fetchOHLC shortNet (-1) 0 (firstn 2 wwdcDates ++ nth 2 wwdcDates (Build_Event 0 "") :: skipn 3 wwdcDates)
     = Throw "Target date 2021-06-07 not found in series"
  /\ results (Dashboard.runBacktest shortNet initialState) = results initialState
  /\ error (Dashboard.runBacktest shortNet initialState) = Some "Offset outside range".
Proof.
  destruct locate_spec as (Hfirst & Hday & Hfetch & Hrun & HrunV2 & Hstate & _).
  split; [|split; [|split; [|split; [|split; [|split]]]]].
  - apply (Hfirst "2019-06-03" [1559309400%Z] 1559568600%Z [1592573400%Z]); reflexivity.
  - apply Hday; reflexivity.
  - apply (Hfetch sampleTimes sampleCloses "2019-06-04" 5%Z). reflexivity.
  - apply (Hfetch sampleTimes sampleCloses "2019-06-04" 5%Z); [reflexivity|discriminate].
  - eapply (Hrun shortNet (-1)%Z 0%Z (firstn 2 wwdcDates) _
              (nth 2 wwdcDates (Build_Event 0 "")) (skipn 3 wwdcDates)
              (firstn 4 sampleTimes) (firstn 4 sampleCloses));
      [ repeat (econstructor; [vm_compute; reflexivity | vm_compute; reflexivity | ]);
        constructor
      | reflexivity | reflexivity ].
  - eapply (HrunV2 shortNet (-1)%Z 0%Z (firstn 2 wwdcDates) _
              (nth 2 wwdcDates (Build_Event 0 "")) (skipn 3 wwdcDates)
              (firstn 4 sampleTimes) (firstn 4 sampleCloses));
      [ repeat (econstructor; [vm_compute; reflexivity | vm_compute; reflexivity | ]);
        constructor
      | reflexivity | reflexivity | discriminate ].
  - apply (Hstate shortNet initialState "Offset outside range"). vm_compute. reflexivity.
Defined.

(** ** Prices that are missing, zero or negative *)

Lemma price_null (cs : list (option JS.number)) (t : Z) :
  element cs t = Some None -> Dashboard.price cs t = Throw "Close price missing".
Proof. intros H. unfold Dashboard.price. now rewrite H. Qed.

Lemma price_number (cs : list (option JS.number)) (t : Z) (p : JS.number) :
  element cs t = Some (Some p) -> Dashboard.price cs t = Ok p.
Proof. intros H. unfold Dashboard.price. now rewrite H. Qed.

Lemma percentReturn_zero_entry (s : bool) (sellP : JS.number) :
  percentReturn (S754_zero s) sellP = S754_nan
  \/ exists s', percentReturn (S754_zero s) sellP = S754_infinity s'.
Proof.
  destruct sellP as [s'|s'| |s' m e]; destruct s; try destruct s';
    first [ left; vm_compute; reflexivity
          | right; eexists; vm_compute; reflexivity ].
Qed.

(** C4, as the claim states it, fails: a close of zero is resolved like
    any other price, the return computed from it is Infinity, and the run
    ends without an error. *)
Lemma zero_price_not_rejected :
  Dashboard.fetchOHLC (chartOf sampleTimes zeroCloses) "2019-06-03" (-1) = Ok (JS.ofZ 0)
  /\ percentReturn (JS.ofZ 0) (JS.ofZ 102) = S754_infinity false
  /\ error (Dashboard.runBacktest zeroNet initialState) = None
  /\ exists rest,
       results (Dashboard.runBacktest zeroNet initialState)
       = Some ({| rowYear := YearNum 2019; ret := S754_infinity false |} :: rest).
Proof.
  repeat split; try (vm_compute; reflexivity).
  eexists. vm_compute. reflexivity.
Qed.

(** C4, amended.  A resolved price that is missing ([null]) makes the
    lookup throw "Close price missing", and a run that meets it throws that
    error instead of computing a return.  Any number found at the target
    index is returned as the price, whatever its sign; with a zero entry
    price the percentage return is Infinity, -Infinity or NaN. *)
Theorem price_spec :
  (forall (ts : list Z) (cs : list (option JS.number)) (date : string) (idx offset : Z),
     findIndex date ts = Ok idx ->
     (0 <= idx)%Z ->
     (0 <= idx + offset < len cs)%Z ->
     (element cs (idx + offset) = Some None ->
      Dashboard.fetchOHLC (chartOf ts cs) date offset = Throw "Close price missing")
     /\ (forall p : JS.number,
           element cs (idx + offset) = Some (Some p) ->
           Dashboard.fetchOHLC (chartOf ts cs) date offset = Ok p))
  /\ (forall (net : Provider) (b s : Z) (pre : list Event) (rows : list Row)
             (ev : Event) (post : list Event),
        Resolved Dashboard.fetchOHLC net b s 0 pre rows ->
        FailsAt Dashboard.fetchOHLC net b s (2 * List.length pre) ev "Close price missing" ->
        backtest Dashboard.fetchOHLC net b s (pre ++ ev :: post)
        = Throw "Close price missing")
  /\ (forall (s : bool) (sellP : JS.number),
        percentReturn (S754_zero s) sellP = S754_nan
        \/ exists s', percentReturn (S754_zero s) sellP = S754_infinity s').
Proof.
  repeat apply conj.
  - intros ts cs date idx offset Hfind Hidx Hrange.
    rewrite (fetchOHLC_located ts cs date idx offset Hfind).
    rewrite (targetIdx_inside cs idx offset Hidx Hrange). cbn [bind]. split.
    + apply price_null.
    + intros p. apply price_number.
  - intros net b s pre rows ev post Hpre Hfail.
    eapply backtest_abort; eassumption.
  - exact percentReturn_zero_entry.
Qed.

Lemma price_spec_witness :
  Dashboard.fetchOHLC (chartOf sampleTimes nullCloses) "2019-06-03" 0
  = Throw "Close price missing"
  /\ Dashboard.fetchOHLC (chartOf sampleTimes zeroCloses) "2019-06-03" (-1)
     = Ok (S754_zero false)
  /\ backtest Dashboard.fetchOHLC nullNet (-1) 0 ([] ++ nth 0 wwdcDates (Build_Event 0 "") :: tl wwdcDates)
     = Throw "Close price missing".
Proof.
  split; [|split].
  - apply (proj1 price_spec sampleTimes nullCloses "2019-06-03" 1%Z 0%Z);
      [reflexivity | lia | change (len nullCloses) with 12%Z; lia | reflexivity].
  - apply (proj1 price_spec sampleTimes zeroCloses "2019-06-03" 1%Z (-1)%Z);
      [reflexivity | lia | change (len zeroCloses) with 12%Z; lia | reflexivity].
  - apply (proj1 (proj2 price_spec) nullNet (-1)%Z 0%Z [] []).
    + constructor.
    + right. exists (JS.ofZ 100). split; vm_compute; reflexivity.
Defined.

(** ** All or nothing *)

(** C5.  When the processing of any one event fails, the run throws a
    single error, that of the first event to fail whatever comes after
    it, and the caller is left with the results it had: no partial list.
    When the run returns, every observation was computed from an entry and
    an exit price that were both resolved, each from an answer that has
    the series, a session on the date, an offset inside it and a close
    there that is not [null]. *)
Theorem backtest_all_or_nothing :
  (forall (net : Provider) (b s : Z) (events : list Event) (i : nat) (ev : Event)
          (m : string),
     nth_error events i = Some ev ->
     FailsAt Dashboard.fetchOHLC net b s (2 * i) ev m ->
     exists m', backtest Dashboard.fetchOHLC net b s events = Throw m')
  /\ (forall (net : Provider) (b s : Z) (pre : list Event) (rows : list Row)
             (ev : Event) (post : list Event) (m : string),
        Resolved Dashboard.fetchOHLC net b s 0 pre rows ->
        FailsAt Dashboard.fetchOHLC net b s (2 * List.length pre) ev m ->
        backtest Dashboard.fetchOHLC net b s (pre ++ ev :: post) = Throw m)
  /\ (forall (net : Provider) (st : State) (m : string),
        backtest Dashboard.fetchOHLC net (val (buy st)) (val (sell st)) wwdcDates = Throw m ->
        results (Dashboard.runBacktest net st) = results st)
  /\ (forall (net : Provider) (b s : Z) (events : list Event) (out : list Row),
        backtest Dashboard.fetchOHLC net b s events = Ok out ->
        exists rows,
          out = rows ++ aggregates rows
          /\ Resolved Dashboard.fetchOHLC net b s 0 events rows)
  /\ (forall (res : Response) (date : string) (offset : Z) (p : JS.number),
        Dashboard.fetchOHLC res date offset = Ok p ->
        exists (status : Z) (ts : list Z) (cs : list (option JS.number)) (idx : Z),
          res = Http true status (Json (Some {| timestamp := Some ts; close := Some cs |}))
          /\ findIndex date ts = Ok idx
          /\ (0 <= idx)%Z
          /\ (0 <= idx + offset < len cs)%Z
          /\ element cs (idx + offset) = Some (Some p)).
Proof.
  repeat apply conj.
  - intros net b s events i ev m. apply backtest_fails.
  - intros net b s pre rows ev post m. apply backtest_abort.
  - intros net st m H. now rewrite (runBacktest_thrown net st m H).
  - intros net b s events out H.
    apply backtest_inv in H as (rows & Hrows & ->). now exists rows.
  - exact fetchOHLC_Ok_inv.
Qed.

Lemma backtest_all_or_nothing_witness :
  (exists m', backtest Dashboard.fetchOHLC nullNet (-1) 0 wwdcDates = Throw m')
  /\ results (Dashboard.runBacktest nullNet initialState) = results initialState
  /\ (exists out rows,
        backtest Dashboard.fetchOHLC sampleNet (-1) 0 wwdcDates = Ok out
        /\ out = rows ++ aggregates rows
        /\ Resolved Dashboard.fetchOHLC sampleNet (-1) 0 0 wwdcDates rows).
Proof.
  destruct backtest_all_or_nothing as (Hany & _ & Hstate & Hok & _).
  split; [|split].
  - apply (Hany nullNet (-1)%Z 0%Z wwdcDates 0%nat
             (Build_Event 2019 "2019-06-03") "Close price missing"); [reflexivity|].
    right. exists (JS.ofZ 100). split; vm_compute; reflexivity.
  - apply (Hstate nullNet initialState "Close price missing"). vm_compute. reflexivity.
  - assert (H : exists out, backtest Dashboard.fetchOHLC sampleNet (-1) 0 wwdcDates = Ok out)
      by (eexists; vm_compute; reflexivity).
    destruct H as [out H]. destruct (Hok _ _ _ _ _ H) as (rows & Hout & Hrows).
    exists out, rows. auto.
Defined.

(** ** The rows of a successful run *)

(** C7.  A run that succeeds yields one row per event, in the order of the
    events, followed by exactly the three aggregate rows Avg, StDev and
    WinRate in that order; that sequence is what the component stores. *)
Theorem results_layout :
  (forall (net : Provider) (b s : Z) (events : list Event) (out : list Row),
     backtest Dashboard.fetchOHLC net b s events = Ok out ->
     exists rows,
       out = rows ++ aggregates rows
       /\ Resolved Dashboard.fetchOHLC net b s 0 events rows
       /\ map rowYear rows = map (fun ev => YearNum (year ev)) events
       /\ map rowYear (aggregates rows) = [YearStr "Avg"; YearStr "StDev"; YearStr "WinRate"]
       /\ List.length out = (List.length events + 3)%nat)
  /\ (forall (net : Provider) (st : State) (out : list Row),
        backtest Dashboard.fetchOHLC net (val (buy st)) (val (sell st)) wwdcDates = Ok out ->
        results (Dashboard.runBacktest net st) = Some out).
Proof.
  split.
  - intros net b s events out H.
    apply backtest_inv in H as (rows & Hrows & ->). exists rows.
    repeat split.
    + exact Hrows.
    + eapply Resolved_years; eassumption.
    + rewrite length_app. erewrite Resolved_length by eassumption. reflexivity.
  - intros net st out H. now rewrite (runBacktest_returned net st out H).
Qed.

Lemma results_layout_witness :
  exists out rows,
    backtest Dashboard.fetchOHLC sampleNet (-1) 0 wwdcDates = Ok out
    /\ results (Dashboard.runBacktest sampleNet initialState) = Some out
    /\ out = rows ++ aggregates rows
    /\ map rowYear rows
       = [YearNum 2019; YearNum 2020; YearNum 2021; YearNum 2022; YearNum 2023; YearNum 2024]
    /\ map rowYear (aggregates rows) = [YearStr "Avg"; YearStr "StDev"; YearStr "WinRate"]
    /\ List.length out = 9%nat.
Proof.
  assert (H : exists out, backtest Dashboard.fetchOHLC sampleNet (-1) 0 wwdcDates = Ok out)
    by (eexists; vm_compute; reflexivity).
  destruct H as [out H].
  destruct (proj1 results_layout sampleNet (-1)%Z 0%Z wwdcDates out H)
    as (rows & Hout & _ & Hyears & Hagg & Hlen).
  exists out, rows. repeat split; try assumption.
  apply (proj2 results_layout sampleNet initialState out H).
Defined.

(** ** Never an empty aggregation *)



(** ** Determinism *)

(** C9.  Two runs with the same offsets, for which the provider answers
    every request for an event's date alike, produce the same output
    whatever results or error the component held before either of them:
    the same rows with the same numbers, or the same error.  In particular
    a run repeated on the state that the first one left, against an
    unchanged provider, leaves that very state. *)
Theorem runBacktest_deterministic (net1 net2 : Provider) (st1 st2 : State) :
  buy st1 = buy st2 ->
  sell st1 = sell st2 ->
  (forall (j : nat) (ev : Event), In ev wwdcDates -> net1 j (date ev) = net2 j (date ev)) ->
  backtest Dashboard.fetchOHLC net1 (val (buy st1)) (val (sell st1)) wwdcDates
  = backtest Dashboard.fetchOHLC net2 (val (buy st2)) (val (sell st2)) wwdcDates
  /\ (forall out : list Row,
        backtest Dashboard.fetchOHLC net1 (val (buy st1)) (val (sell st1)) wwdcDates = Ok out ->
        results (Dashboard.runBacktest net1 st1) = Some out
        /\ results (Dashboard.runBacktest net2 st2) = Some out)
  /\ error (Dashboard.runBacktest net1 st1) = error (Dashboard.runBacktest net2 st2)
  /\ Dashboard.runBacktest net2 (Dashboard.runBacktest net1 st1)
     = Dashboard.runBacktest net1 st1.
Proof.
  intros Hbuy Hsell H.
  assert (Hext : forall b s : Z,
             backtest Dashboard.fetchOHLC net1 b s wwdcDates
             = backtest Dashboard.fetchOHLC net2 b s wwdcDates).
  { intros b s. unfold backtest.
    now rewrite (collectRows_ext Dashboard.fetchOHLC b s net1 net2 wwdcDates 0 [] H). }
  assert (Hsame : backtest Dashboard.fetchOHLC net1 (val (buy st1)) (val (sell st1)) wwdcDates
                  = backtest Dashboard.fetchOHLC net2 (val (buy st2)) (val (sell st2)) wwdcDates)
    by (rewrite Hext, Hbuy, Hsell; reflexivity).
  split; [exact Hsame|].
  destruct (backtest Dashboard.fetchOHLC net1 (val (buy st1)) (val (sell st1)) wwdcDates)
    as [out|m] eqn:Hrun.
  - rewrite (runBacktest_returned net1 st1 out Hrun).
    rewrite (runBacktest_returned net2 st2 out (eq_sym Hsame)).
    split; [intros out' E; injection E as <-; split; reflexivity|].
    split; [reflexivity|].
    set (st' := {| buy := buy st1; sell := sell st1; results := Some out;
                   loading := false; error := None |}).
    rewrite (runBacktest_returned net2 st' out); [reflexivity|].
    cbn [st' buy sell]. now rewrite <- Hext.
  - rewrite (runBacktest_thrown net1 st1 m Hrun).
    rewrite (runBacktest_thrown net2 st2 m (eq_sym Hsame)).
    split; [intros out' E; discriminate E|].
    split; [reflexivity|].
    set (st' := {| buy := buy st1; sell := sell st1; results := results st1;
                   loading := false; error := Some m |}).
    rewrite (runBacktest_thrown net2 st' m); [reflexivity|].
    cbn [st' buy sell]. now rewrite <- Hext.
Qed.

Lemma runBacktest_deterministic_witness :
  let net2 : Provider :=
    fun j d => if String.eqb d "1999-12-31" then Rejected "offline" else sampleNet j d in
  let st1 := Dashboard.runBacktest zeroNet initialState in
  let st2 := Dashboard.runBacktest downNet initialState in
  results st1 <> results st2
  /\ error st1 <> error st2
  /\ results (Dashboard.runBacktest sampleNet st1) = results (Dashboard.runBacktest net2 st2)
  /\ error (Dashboard.runBacktest sampleNet st1) = error (Dashboard.runBacktest net2 st2)
  /\ Dashboard.runBacktest net2 (Dashboard.runBacktest sampleNet st1)
     = Dashboard.runBacktest sampleNet st1.
Proof.
  intros net2 st1 st2.
  split; [vm_compute; discriminate|]. split; [vm_compute; discriminate|].
  assert (Hnet : forall (j : nat) (ev : Event),
             In ev wwdcDates -> sampleNet j (date ev) = net2 j (date ev)).
  { intros j ev Hin. cbn [wwdcDates In] in Hin.
    repeat (destruct Hin as [<- | Hin]; [reflexivity|]). destruct Hin. }
  destruct (runBacktest_deterministic sampleNet net2 st1 st2 eq_refl eq_refl Hnet)
    as (_ & Hres & Herr & Hagain).
  split; [|split; [exact Herr|exact Hagain]].
  destruct (backtest Dashboard.fetchOHLC sampleNet (val (buy st1)) (val (sell st1)) wwdcDates)
    as [out|m] eqn:Hrun; [|vm_compute in Hrun; discriminate Hrun].
  destruct (Hres out eq_refl) as [-> ->]. reflexivity.
Defined.

(** ** The error path *)

(** C10.  A run that fails sets the error message and nothing else: the
    results stored by an earlier run stay as they were, and stay on
    display, next to the new error. *)
Theorem error_keeps_results (net : Provider) (st : State) (m : string) :
  backtest Dashboard.fetchOHLC net (val (buy st)) (val (sell st)) wwdcDates = Throw m ->
  results (Dashboard.runBacktest net st) = results st
  /\ showsResults (Dashboard.runBacktest net st) = showsResults st
  /\ error (Dashboard.runBacktest net st) = Some m
  /\ buy (Dashboard.runBacktest net st) = buy st
  /\ sell (Dashboard.runBacktest net st) = sell st
  /\ loading (Dashboard.runBacktest net st) = false.
Proof.
  intros H. rewrite (runBacktest_thrown net st m H). repeat split.
Qed.

Lemma error_keeps_results_witness :
  let before := Dashboard.runBacktest sampleNet initialState in
  let after := Dashboard.runBacktest downNet before in
  showsResults before = true
  /\ results after = results before
  /\ showsResults after = showsResults before
  /\ error after = Some "Failed to fetch"
  /\ buy after = buy before
  /\ sell after = sell before
  /\ loading after = false.
Proof.
  intros before after. split; [vm_compute; reflexivity|].
  apply (error_keeps_results downNet before "Failed to fetch").
  vm_compute. reflexivity.
Defined.

(** * Further properties of the component *)

(** ** The two variants of the lookup *)

Lemma findIndex_range (date : string) (ts : list Z) (idx : Z) :
  findIndex date ts = Ok idx -> idx = (-1)%Z \/ (0 <= idx < len ts)%Z.
Proof.
  intros H. apply findIndexFrom_inv in H
    as [[_ ->] | (pre & t & post & -> & _ & _ & ->)]; [now left|right].
  pose proof (len_nonneg pre). pose proof (len_nonneg post).
  unfold len in *. rewrite length_app. cbn [List.length]. lia.
Qed.

Lemma fetchOHLC_agree (res : Response) (date : string) (offset : Z) :
  sameOutcome (Dashboard.fetchOHLC res date offset)
              (DashboardV2.fetchOHLC res date offset).
Proof.
  unfold Dashboard.fetchOHLC, DashboardV2.fetchOHLC.
  destruct res as [m|ok status body]; [exact I|].
  destruct ok; cbn [negb]; [|exact I].
  destruct body as [m|[[tsOpt csOpt]|]]; try exact I.
  cbn [timestamp close].
  destruct tsOpt as [ts|]; [|exact I].
  set (closes := match csOpt with Some c => c | None => [] end).
  destruct (findIndex date ts) as [idx|m] eqn:Hfind; cbn [bind].
  2:{ destruct (len closes =? 0)%Z; exact I. }
  apply findIndex_range in Hfind.
  unfold Dashboard.targetIdx.
  destruct (len closes =? 0)%Z eqn:E0.
  - apply Z.eqb_eq in E0. rewrite E0.
    destruct (idx <? 0)%Z eqn:E1; [exact I|].
    destruct (idx + offset <? 0)%Z eqn:E2; [exact I|].
    destruct (idx + offset >=? 0)%Z eqn:E3; [exact I|].
    apply Z.ltb_ge in E2. rewrite Z.geb_leb in E3. apply Z.leb_gt in E3. lia.
  - destruct (idx =? -1)%Z eqn:Em.
    + apply Z.eqb_eq in Em. subst idx. exact I.
    + apply Z.eqb_neq in Em.
      destruct (idx <? 0)%Z eqn:E1; [apply Z.ltb_lt in E1; lia|].
      cbn [orb].
      destruct ((idx + offset <? 0)%Z || (idx + offset >=? len closes)%Z); [exact I|].
      cbn [bind]. unfold Dashboard.price.
      destruct (element closes (idx + offset)) as [[p|]|]; [reflexivity|exact I|exact I].
Qed.

Lemma collectRows_variants_agree (net : Provider) (b s : Z) (events : list Event) :
  forall (k : nat) (rows : list Row),
    sameOutcome (collectRows Dashboard.fetchOHLC net b s events k rows)
                (collectRows DashboardV2.fetchOHLC net b s events k rows).
Proof.
  induction events as [|ev events IH]; intros k rows; cbn [collectRows].
  - reflexivity.
  - pose proof (fetchOHLC_agree (net k (date ev)) (date ev) b) as Hb.
    destruct (Dashboard.fetchOHLC (net k (date ev)) (date ev) b) as [p|m];
      destruct (DashboardV2.fetchOHLC (net k (date ev)) (date ev) b) as [p'|m'];
      cbn [sameOutcome bind] in *; try contradiction; [subst p'|exact I].
    pose proof (fetchOHLC_agree (net (S k) (date ev)) (date ev) s) as Hs.
    destruct (Dashboard.fetchOHLC (net (S k) (date ev)) (date ev) s) as [q|m];
      destruct (DashboardV2.fetchOHLC (net (S k) (date ev)) (date ev) s) as [q'|m'];
      cbn [sameOutcome bind] in *; try contradiction; [subst q'|exact I].
    apply IH.
Qed.

(** The lookup of the mounted component and that of the v2 variant return
    the same price whenever either returns one, and fail together: they
    differ in the messages of their errors only.  Hence, whatever the
    provider answers, a run of either from the same state leaves the same
    results, and one stores an error exactly when the other does. *)
Theorem variants_agree :
  (forall (res : Response) (date : string) (offset : Z),
     sameOutcome (Dashboard.fetchOHLC res date offset)
                 (DashboardV2.fetchOHLC res date offset))
  /\ (forall (net : Provider) (st : State),
        results (Dashboard.runBacktest net st) = results (DashboardV2.runBacktest net st)
        /\ (error (Dashboard.runBacktest net st) = None
            <-> error (DashboardV2.runBacktest net st) = None)).
Proof.
  split; [exact fetchOHLC_agree|]. intros net st.
  unfold Dashboard.runBacktest, DashboardV2.runBacktest, backtest.
  pose proof (collectRows_variants_agree net (val (buy st)) (val (sell st)) wwdcDates 0 [])
    as H.
  destruct (collectRows Dashboard.fetchOHLC net (val (buy st)) (val (sell st)) wwdcDates 0 [])
    as [rows|m];
    destruct (collectRows DashboardV2.fetchOHLC net (val (buy st)) (val (sell st)) wwdcDates 0 [])
    as [rows'|m'];
    cbn [sameOutcome bind] in *; try contradiction.
  - subst rows'. split; [reflexivity|]. split; reflexivity.
  - split; [reflexivity|]. cbn. split; discriminate.
Qed.

(** ** Returns and statistics at the edges *)

(** A price that did not move returns exactly 0, whatever the price. *)
Theorem percentReturn_flat (s : bool) (m : positive) (e : Z) :
  percentReturn (S754_finite s m e) (S754_finite s m e) = S754_zero false.
Proof.
  unfold percentReturn.
  assert (Hsub : JS.sub (S754_finite s m e) (S754_finite s m e) = S754_zero false).
  { unfold JS.sub, SFsub. rewrite Z.sub_diag. reflexivity. }
  rewrite Hsub. destruct s; vm_compute; reflexivity.
Qed.

Lemma add_nan_r (x : JS.number) : JS.add x S754_nan = S754_nan.
Proof. destruct x; reflexivity. Qed.

Lemma sub_nan_r (x : JS.number) : JS.sub x S754_nan = S754_nan.
Proof. destruct x; reflexivity. Qed.

Lemma total_nan (xs : list JS.number) : Stats.total S754_nan xs = S754_nan.
Proof. induction xs as [|x xs IH]; cbn [Stats.total]; [reflexivity|exact IH]. Qed.

Lemma total_with_nan (xs : list JS.number) (acc : JS.number) :
  In S754_nan xs -> Stats.total acc xs = S754_nan.
Proof.
  revert acc. induction xs as [|x xs IH]; intros acc Hin; [destruct Hin|].
  cbn [Stats.total]. destruct Hin as [Hx|Hin].
  - subst x. rewrite add_nan_r. apply total_nan.
  - now apply IH.
Qed.

(** An event whose entry and exit closes are both zero returns NaN; and a
    single NaN among the returns makes both the Avg and the StDev row NaN,
    while the run still succeeds. *)
Theorem nan_poisons_statistics :
  (forall s s' : bool, percentReturn (S754_zero s) (S754_zero s') = S754_nan)
  /\ (forall (rows : list Row) (r : Row),
        In r rows ->
        ret r = S754_nan ->
        exists w, map ret (aggregates rows) = [S754_nan; S754_nan; w]).
Proof.
  split.
  - intros [] []; vm_compute; reflexivity.
  - intros rows r Hin Hnan.
    assert (Hmean : mean rows = S754_nan).
    { rewrite mean_arithmeticMean. unfold Stats.arithmeticMean.
      rewrite total_with_nan; [reflexivity|].
      rewrite <- Hnan. now apply in_map. }
    assert (Hsd : stdev rows = S754_nan).
    { rewrite stdev_populationStdev. unfold Stats.populationStdev.
      rewrite <- mean_arithmeticMean, Hmean.
      rewrite total_with_nan; [reflexivity|].
      apply in_map_iff. exists (ret r). split; [|now apply in_map].
      now rewrite sub_nan_r. }
    eexists. unfold aggregates. cbn [map ret]. rewrite Hmean, Hsd. reflexivity.
Qed.

Lemma nan_poisons_statistics_witness :
  exists w,
    map ret (aggregates [ {| rowYear := YearNum 2019; ret := JS.ofZ 2 |};
                          {| rowYear := YearNum 2020; ret := S754_nan |} ])
    = [S754_nan; S754_nan; w].
Proof.
  apply (proj2 nan_poisons_statistics _ {| rowYear := YearNum 2020; ret := S754_nan |}).
  - right. left. reflexivity.
  - reflexivity.
Defined.

(** Without events nothing is thrown: the result is the three aggregate
    rows alone, and each of them is NaN. *)
Theorem backtest_no_events (fetchOHLC : Response -> string -> Z -> Result JS.number)
    (net : Provider) (b s : Z) :
  backtest fetchOHLC net b s [] = Ok (aggregates [])
  /\ map ret (aggregates []) = [S754_nan; S754_nan; S754_nan].
Proof. split; [reflexivity|vm_compute; reflexivity]. Qed.

Lemma len_filter_le {A : Type} (f : A -> bool) (l : list A) :
  (0 <= len (filter f l) <= len l)%Z.
Proof. unfold len. pose proof (filter_length_le f l). lia. Qed.

(** With the six configured events, the WinRate row of a run that succeeds
    is one of 0, 17, 33, 50, 67, 83 and 100, whatever the prices were. *)
Theorem winRate_sixths (fetchOHLC : Response -> string -> Z -> Result JS.number)
    (net : Provider) (b s : Z) (out : list Row) :
  backtest fetchOHLC net b s wwdcDates = Ok out ->
  exists avg sd w,
    skipn 6 out
    = [ {| rowYear := YearStr "Avg"; ret := avg |};
        {| rowYear := YearStr "StDev"; ret := sd |};
        {| rowYear := YearStr "WinRate"; ret := w |} ]
    /\ In w sixthsPercent.
Proof.
  intros H. apply backtest_inv in H as (rows & Hrows & ->).
  pose proof (Resolved_length _ _ _ _ _ _ _ Hrows) as Hlen. cbn in Hlen.
  exists (JS.roundTo 2 (mean rows)), (JS.roundTo 2 (stdev rows)),
         (JS.roundTo 0 (JS.mul (winRate rows) (JS.ofZ 100))).
  split.
  - assert (Hs : skipn 6 rows = []) by (rewrite <- Hlen; apply skipn_all).
    rewrite skipn_app, Hs, Hlen. reflexivity.
  - unfold winRate.
    pose proof (len_filter_le (fun r => JS.gt (ret r) (JS.ofZ 0)) rows) as Hk.
    assert (Hn : len rows = 6%Z) by (unfold len; rewrite Hlen; reflexivity).
    rewrite Hn in *.
    set (k := len (filter (fun r => JS.gt (ret r) (JS.ofZ 0)) rows)) in *.
    assert (Hcases : (k = 0 \/ k = 1 \/ k = 2 \/ k = 3 \/ k = 4 \/ k = 5 \/ k = 6)%Z) by lia.
    destruct Hcases as [-> | [-> | [-> | [-> | [-> | [-> | ->]]]]]];
      vm_compute; auto 8.
Qed.

Lemma winRate_sixths_witness :
  exists out avg sd w,
    backtest Dashboard.fetchOHLC sampleNet (-1) 0 wwdcDates = Ok out
    /\ skipn 6 out
       = [ {| rowYear := YearStr "Avg"; ret := avg |};
           {| rowYear := YearStr "StDev"; ret := sd |};
           {| rowYear := YearStr "WinRate"; ret := w |} ]
    /\ In w sixthsPercent.
Proof.
  assert (H : exists out, backtest Dashboard.fetchOHLC sampleNet (-1) 0 wwdcDates = Ok out)
    by (eexists; vm_compute; reflexivity).
  destruct H as [out H].
  destruct (winRate_sixths Dashboard.fetchOHLC sampleNet (-1)%Z 0%Z out H)
    as (avg & sd & w & Hskip & Hw).
  exists out, avg, sd, w. auto.
Defined.

(** ** What [findIndex] answers *)

Lemma findIndexFrom_thrown (date : string) (ts : list Z) (i : Z) (m : string) :
  findIndexFrom date ts i = Throw m ->
  m = invalidTimeMessage
  /\ exists pre t post,
       ts = pre ++ t :: post /\ absent date pre = true /\ JSDate.isoDay t = None.
Proof.
  revert i. induction ts as [|t ts IH]; intros i H; cbn [findIndexFrom] in H.
  - discriminate.
  - destruct (JSDate.isoDay t) as [day|] eqn:Hday.
    + destruct (String.eqb day date) eqn:Heq; [discriminate|].
      destruct (IH _ H) as (Hm & pre & t' & post & -> & Hpre & Ht').
      split; [exact Hm|]. exists (t :: pre), t', post. repeat split; try assumption.
      cbn [absent forallb]. unfold otherDay at 1. rewrite Hday, Heq. exact Hpre.
    + injection H as <-. split; [reflexivity|].
      exists [], t, ts. repeat split. exact Hday.
Qed.

(** [findIndex] answers the index of the first session on the date, with
    no session on it before; or -1 when the series has none; and it throws,
    the RangeError of the date conversion, only on an invalid stamp that
    comes before any session on the date. *)
Theorem findIndex_characterised (date : string) (ts : list Z) :
  match findIndex date ts with
  | Ok idx =>
      (idx = (-1)%Z /\ absent date ts = true)
      \/ ((0 <= idx < len ts)%Z
          /\ absent date (firstn (Z.to_nat idx) ts) = true
          /\ exists t, nth_error ts (Z.to_nat idx) = Some t
                       /\ JSDate.isoDay t = Some date)
  | Throw m =>
      m = invalidTimeMessage
      /\ exists pre t post,
           ts = pre ++ t :: post /\ absent date pre = true /\ JSDate.isoDay t = None
  end.
Proof.
  destruct (findIndex date ts) as [idx|m] eqn:H.
  - pose proof (findIndex_range _ _ _ H) as Hrange.
    apply findIndexFrom_inv in H
      as [[Habs ->] | (pre & t & post & -> & Hpre & Ht & ->)]; [now left|right].
    destruct Hrange as [Hneg|Hrange]; [pose proof (len_nonneg pre); lia|].
    split; [exact Hrange|].
    replace (Z.to_nat (0 + len pre)) with (List.length pre) by (unfold len; lia).
    split.
    + rewrite firstn_app, firstn_all, Nat.sub_diag. cbn [firstn].
      now rewrite app_nil_r.
    + exists t. split; [|exact Ht].
      rewrite nth_error_app2 by lia. now rewrite Nat.sub_diag.
  - now apply findIndexFrom_thrown in H.
Qed.

Lemma isoDay_invalid (t : Z) :
  (8640000000000 < Z.abs t)%Z -> JSDate.isoDay t = None.
Proof.
  intros H. unfold JSDate.isoDay, JSDate.validTime.
  destruct (Z.abs (t * 1000) <=? 8640000000000000)%Z eqn:E; [|reflexivity].
  apply Z.leb_le in E. lia.
Qed.

Lemma findIndexFrom_invalid (date : string) (pre : list Z) (t : Z) (post : list Z) (i : Z) :
  absent date pre = true ->
  JSDate.isoDay t = None ->
  findIndexFrom date (pre ++ t :: post) i = Throw invalidTimeMessage.
Proof.
  revert i. induction pre as [|p pre IH]; intros i Hpre Ht; cbn [app findIndexFrom].
  - now rewrite Ht.
  - cbn [absent forallb] in Hpre. apply andb_prop in Hpre as [Hp Hpre].
    unfold otherDay in Hp. destruct (JSDate.isoDay p) as [day|]; [|discriminate].
    apply negb_true_iff in Hp. rewrite Hp. now apply IH.
Qed.

(** A session stamp beyond the range of [Date] (more than 8.64e12 seconds
    from the epoch) that comes before any session on the date makes both
    variants of the lookup throw "Invalid time value", whatever the offset
    and whatever follows in the series. *)
Theorem invalid_stamp_surfaces (pre post : list Z) (t : Z)
    (cs : list (option JS.number)) (date : string) (offset : Z) :
  absent date pre = true ->
  (8640000000000 < Z.abs t)%Z ->
  Dashboard.fetchOHLC (chartOf (pre ++ t :: post) cs) date offset
  = Throw "Invalid time value"
  /\ (cs <> [] ->
      DashboardV2.fetchOHLC (chartOf (pre ++ t :: post) cs) date offset
      = Throw "Invalid time value").
Proof.
  intros Hpre Ht. apply isoDay_invalid in Ht.
  pose proof (findIndexFrom_invalid date pre t post 0 Hpre Ht) as Hfind.
  split.
  - unfold Dashboard.fetchOHLC, chartOf, findIndex. cbn [negb timestamp close].
    rewrite Hfind. reflexivity.
  - intros Hcs. unfold DashboardV2.fetchOHLC, chartOf, findIndex.
    cbn [negb timestamp close].
    destruct cs as [|c cs]; [congruence|]. rewrite len_cons.
    destruct (len cs + 1 =? 0)%Z eqn:E;
      [apply Z.eqb_eq in E; pose proof (len_nonneg cs); lia|].
    rewrite Hfind. reflexivity.
Qed.

Lemma invalid_stamp_surfaces_witness :
  Dashboard.fetchOHLC (chartOf ([1559309400] ++ 10000000000000 :: [1559568600])%Z sampleCloses)
    "2019-06-03" 0
  = Throw "Invalid time value"
  /\ (sampleCloses <> [] ->
      DashboardV2.fetchOHLC
        (chartOf ([1559309400] ++ 10000000000000 :: [1559568600])%Z sampleCloses)
        "2019-06-03" 0
      = Throw "Invalid time value").
Proof.
  apply (invalid_stamp_surfaces [1559309400%Z] [1559568600%Z] 10000000000000%Z
           sampleCloses "2019-06-03" 0%Z).
  - reflexivity.
  - reflexivity.
Defined.

(** ** Offsets add up *)

(** Looking [a + b] sessions away from a date is looking [b] sessions away
    from the date of the session [a] away from it, provided that date is
    first met there: the same price, or the same error. *)
Theorem fetchOHLC_offsets_compose (ts : list Z) (cs : list (option JS.number))
    (date date' : string) (idx a b : Z) :
  findIndex date ts = Ok idx ->
  (0 <= idx)%Z ->
  findIndex date' ts = Ok (idx + a)%Z ->
  (0 <= idx + a)%Z ->
  Dashboard.fetchOHLC (chartOf ts cs) date (a + b)
  = Dashboard.fetchOHLC (chartOf ts cs) date' b.
Proof.
  intros Hd Hidx Hd' Hidx'.
  rewrite (fetchOHLC_located ts cs date idx (a + b) Hd).
  rewrite (fetchOHLC_located ts cs date' (idx + a) b Hd').
  unfold Dashboard.targetIdx.
  replace (idx + (a + b))%Z with (idx + a + b)%Z by lia.
  destruct (idx <? 0)%Z eqn:E1; [apply Z.ltb_lt in E1; lia|].
  destruct (idx + a <? 0)%Z eqn:E2; [apply Z.ltb_lt in E2; lia|].
  reflexivity.
Qed.

Lemma fetchOHLC_offsets_compose_witness :
  Dashboard.fetchOHLC (chartOf sampleTimes sampleCloses) "2019-06-03" (2 + -1)
  = Dashboard.fetchOHLC (chartOf sampleTimes sampleCloses) "2020-06-22" (-1).
Proof.
  apply (fetchOHLC_offsets_compose sampleTimes sampleCloses
           "2019-06-03" "2020-06-22" 1 2 (-1));
    [reflexivity | lia | reflexivity | lia].
Defined.

(** ** The chart and the table *)

Lemma Resolved_views (fetchOHLC : Response -> string -> Z -> Result JS.number)
    (net : Provider) (b s : Z) (k : nat) (events : list Event) (rows : list Row) :
  Resolved fetchOHLC net b s k events rows ->
  chartData rows = rows
  /\ filter (fun r => isString (rowYear r)) rows = []
  /\ Forall (fun r => rowClass r = "border-b last:border-none ") rows.
Proof.
  unfold chartData. induction 1 as [|k ev events buyP sellP rows _ _ _ (IH1 & IH2 & IH3)];
    cbn [filter rowYear isNumber isString].
  - repeat split. constructor.
  - rewrite IH1, IH2. repeat split. constructor; [reflexivity|exact IH3].
Qed.

(** After a run that succeeds, the chart plots exactly the rows of the
    events, one bar per event in the order of the events, and none of the
    aggregates; the rows the table greys out are exactly the aggregates. *)
Theorem chart_plots_event_rows (net : Provider) (b s : Z) (events : list Event)
    (out : list Row) :
  backtest Dashboard.fetchOHLC net b s events = Ok out ->
  exists rows,
    out = rows ++ aggregates rows
    /\ chartData out = rows
    /\ map rowYear (chartData out) = map (fun ev => YearNum (year ev)) events
    /\ Forall (fun r => rowClass r = "border-b last:border-none ") rows
    /\ Forall (fun r => rowClass r = "border-b last:border-none text-slate-500")
              (aggregates rows).
Proof.
  intros H. apply backtest_inv in H as (rows & Hrows & ->).
  destruct (Resolved_views _ _ _ _ _ _ _ Hrows) as (Hnum & Hstr & Hcls).
  exists rows. split; [reflexivity|].
  assert (Hchart : chartData (rows ++ aggregates rows) = rows).
  { unfold chartData in *. rewrite filter_app, Hnum. cbn. now rewrite app_nil_r. }
  split; [exact Hchart|]. split; [|split].
  - rewrite Hchart. eapply Resolved_years; eassumption.
  - exact Hcls.
  - repeat constructor.
Qed.

Lemma chart_plots_event_rows_witness :
  exists out rows,
    backtest Dashboard.fetchOHLC sampleNet (-1) 0 wwdcDates = Ok out
    /\ out = rows ++ aggregates rows
    /\ chartData out = rows
    /\ map rowYear (chartData out) = map (fun ev => YearNum (year ev)) wwdcDates
    /\ Forall (fun r => rowClass r = "border-b last:border-none ") rows
    /\ Forall (fun r => rowClass r = "border-b last:border-none text-slate-500")
              (aggregates rows).
Proof.
  assert (H : exists out, backtest Dashboard.fetchOHLC sampleNet (-1) 0 wwdcDates = Ok out)
    by (eexists; vm_compute; reflexivity).
  destruct H as [out H].
  destruct (chart_plots_event_rows sampleNet (-1)%Z 0%Z wwdcDates out H)
    as (rows & H1 & H2 & H3 & H4 & H5).
  exists out, rows. auto 7.
Defined.

(** ** The selects and the sessions of a user *)

Lemma findOffset_In (offsets : list Offset) (value : string) (o : Offset) :
  findOffset offsets value = Some o -> In o offsets /\ label o = value.
Proof.
  intros H. apply find_some in H as [Hin Heq]. split; [exact Hin|].
  now apply String.eqb_eq.
Qed.

Lemma findOffset_unknown (offsets : list Offset) (value : string) :
  ~ In value (map label offsets) -> findOffset offsets value = None.
Proof.
  intros Hnot. destruct (findOffset offsets value) as [o|] eqn:H; [|reflexivity].
  apply findOffset_In in H as [Hin <-]. exfalso. apply Hnot. now apply in_map.
Qed.

(** Picking one of the options a select offers stores the offset that
    carries that very text and touches nothing else; any other value makes
    [find] come back empty. *)
Theorem select_stores_chosen_offset :
  (forall (value : string) (st : State),
     In value buyOptions ->
     exists o,
       In o buyOffsets /\ label o = value
       /\ onBuyChange value st = Some (setBuy o st))
  /\ (forall (value : string) (st : State),
        In value sellOptions ->
        exists o,
          In o sellOffsets /\ label o = value
          /\ onSellChange value st = Some (setSell o st))
  /\ (forall (value : string) (st : State),
        ~ In value buyOptions -> onBuyChange value st = None)
  /\ (forall (value : string) (st : State),
        ~ In value sellOptions -> onSellChange value st = None).
Proof.
  repeat apply conj.
  - intros value st Hin. unfold onBuyChange.
    cbn in Hin. destruct Hin as [<- | [<- | [<- | []]]];
      (eexists; split; [|split; [|reflexivity]]; [cbn; auto|reflexivity]).
  - intros value st Hin. unfold onSellChange.
    cbn in Hin. destruct Hin as [<- | [<- | [<- | []]]];
      (eexists; split; [|split; [|reflexivity]]; [cbn; auto|reflexivity]).
  - intros value st Hnot. unfold onBuyChange.
    now rewrite (findOffset_unknown buyOffsets value Hnot).
  - intros value st Hnot. unfold onSellChange.
    now rewrite (findOffset_unknown sellOffsets value Hnot).
Qed.

Lemma select_stores_chosen_offset_witness :
  (exists o,
     In o buyOffsets /\ label o = "5 sessions before"
     /\ onBuyChange "5 sessions before" initialState = Some (setBuy o initialState))
  /\ onSellChange "10 sessions after" initialState = None.
Proof.
  split.
  - apply (proj1 select_stores_chosen_offset "5 sessions before" initialState).
    left. reflexivity.
  - apply (proj2 (proj2 (proj2 select_stores_chosen_offset)) "10 sessions after" initialState).
    cbn. intros [H | [H | [H | []]]]; discriminate H.
Defined.

Lemma Settled_mounted : Settled mounted.
Proof.
  unfold Settled, mounted. cbn. repeat split; auto; try discriminate.
Qed.

Lemma RunOk_startRun (st : State) :
  In (buy st) buyOffsets -> In (sell st) sellOffsets -> RunOk (startRun st).
Proof.
  intros Hb Hs. unfold RunOk, startRun. cbn [runEvents runRows entryVal exitVal].
  split; [discriminate|]. split; [reflexivity|]. split; now apply in_map.
Qed.

Lemma resume_RunOk (r : Run) (res : Response) :
  RunOk r ->
  match resume r res with
  | Continue r' => RunOk r'
  | Finished out => wellFormedResults (Some out)
  | Failed _ => True
  end.
Proof.
  intros (Hev & Hyears & Hb & Hs). unfold resume.
  destruct (runEvents r) as [|ev rest] eqn:Eev; [now contradiction Hev|].
  destruct (runEntry r) as [buyP|].
  - destruct (Dashboard.fetchOHLC res (date ev) (exitVal r)) as [sellP|m]; [|exact I].
    cbv zeta. destruct rest as [|ev' rest].
    + cbn [wellFormedResults]. eexists. split; [reflexivity|].
      rewrite map_app. exact Hyears.
    + unfold RunOk. cbn [runEvents runRows entryVal exitVal].
      split; [discriminate|]. split; [|split; assumption].
      rewrite map_app, <- app_assoc. exact Hyears.
  - destruct (Dashboard.fetchOHLC res (date ev) (entryVal r)) as [buyP|m]; [|exact I].
    unfold RunOk. cbn [runEvents runRows entryVal exitVal].
    split; [discriminate|]. split; [exact Hyears|split; assumption].
Qed.

Ltac settled :=
  unfold Settled;
  cbn [withCells cells inFlight setBuy setSell setLoading setResults setError
       buy sell results loading error firstn skipn app];
  refine (conj _ (conj _ (conj _ (conj _ (conj _ _))))).

Lemma happen_Settled (h : Happening) (c c' : Component) :
  Settled c -> happen h c = Some c' -> Settled c'.
Proof.
  intros (Hbuy & Hsell & Hres & Hone & Hload & Hruns) H.
  destruct h as [value|value| |i res]; cbn [happen] in H.
  - unfold onBuyChange in H.
    destruct (findOffset buyOffsets value) as [o|] eqn:Hfind; [|discriminate].
    injection H as <-. apply findOffset_In in Hfind as [Hin _].
    settled; assumption.
  - unfold onSellChange in H.
    destruct (findOffset sellOffsets value) as [o|] eqn:Hfind; [|discriminate].
    injection H as <-. apply findOffset_In in Hfind as [Hin _].
    settled; assumption.
  - destruct (loading (cells c)) eqn:Eload.
    + injection H as <-. settled; [assumption..|  |assumption]. now rewrite Eload.
    + injection H as <-.
      assert (Hnone : inFlight c = []).
      { destruct (inFlight c) as [|r rs]; [reflexivity|].
        assert (Ht : false = true) by (apply Hload; discriminate). discriminate Ht. }
      rewrite Hnone.
      settled; [assumption|assumption|assumption|cbn; lia| |].
      * split; [discriminate|reflexivity].
      * constructor; [|constructor]. now apply RunOk_startRun.
  - destruct (nth_error (inFlight c) i) as [r|] eqn:Hi; [|discriminate].
    injection H as <-.
    assert (Hshape : i = 0%nat /\ inFlight c = [r]).
    { destruct (inFlight c) as [|r0 [|r1 rs]]; cbn [List.length] in Hone.
      - destruct i; discriminate Hi.
      - destruct i as [|i]; cbn [nth_error] in Hi.
        + injection Hi as ->. now split.
        + destruct i; discriminate Hi.
      - lia. }
    destruct Hshape as [-> Hshape]. rewrite Hshape in *.
    assert (Hr : RunOk r) by (now inversion Hruns).
    pose proof (resume_RunOk r res Hr) as Hnext.
    destruct (resume r res) as [r'|out|m].
    + settled; [assumption|assumption|assumption|cbn; lia| |].
      * split; [discriminate|]. intros _. apply Hload. discriminate.
      * constructor; [exact Hnext|constructor].
    + settled; [assumption|assumption|exact Hnext|cbn; lia| |constructor].
      split; [discriminate|intros Hf; now contradiction Hf].
    + settled; [assumption|assumption|assumption|cbn; lia| |constructor].
      split; [discriminate|intros Hf; now contradiction Hf].
Qed.

(** Whatever the user does, and whenever and whatever the provider answers
    or fails to answer: at most one run is in flight, and [loading] is set
    exactly while one is; the entry and the exit offset are from the
    offered ones, the entry never after the exit, and so are those that a
    run in flight works with; and the results, if any, are made of one row
    per configured event followed by the three aggregates. *)
Theorem session_Settled (happenings : list Happening) (c : Component) :
  session happenings mounted = Some c ->
  Settled c
  /\ (val (buy (cells c)) <= 0 <= val (sell (cells c)))%Z
  /\ Forall (fun r => (entryVal r <= 0 <= exitVal r)%Z) (inFlight c).
Proof.
  intros H.
  assert (Hs : Settled c).
  { revert H. generalize Settled_mounted. generalize mounted.
    induction happenings as [|h happenings IH]; intros c0 Hc0 H; cbn [session] in H.
    - now injection H as <-.
    - destruct (happen h c0) as [c1|] eqn:Hh; [|discriminate].
      eapply IH; [|exact H]. eapply happen_Settled; eassumption. }
  split; [exact Hs|].
  destruct Hs as (Hbuy & Hsell & _ & _ & _ & Hruns). split.
  - cbn in Hbuy, Hsell.
    destruct Hbuy as [<- | [<- | [<- | []]]];
      destruct Hsell as [<- | [<- | [<- | []]]]; cbn; lia.
  - eapply Forall_impl; [|exact Hruns].
    intros r (_ & _ & Hb & Hs). cbn in Hb, Hs.
    destruct Hb as [<- | [<- | [<- | []]]];
      destruct Hs as [<- | [<- | [<- | []]]]; lia.
Qed.

Lemma session_Settled_witness :
  exists c,
    session [ Click; PickSell "20 sessions after";
              Answer 0%nat (sampleNet 0%nat "2019-06-03"); Click ] mounted
    = Some c
    /\ loading (cells c) = true
    /\ val (sell (cells c)) = 20%Z
    /\ map exitVal (inFlight c) = [0%Z]
    /\ Settled c
    /\ (val (buy (cells c)) <= 0 <= val (sell (cells c)))%Z
    /\ Forall (fun r => (entryVal r <= 0 <= exitVal r)%Z) (inFlight c).
Proof.
  eexists. split; [vm_compute; reflexivity|].
  split; [reflexivity|]. split; [reflexivity|]. split; [reflexivity|].
  apply (session_Settled [ Click; PickSell "20 sessions after";
                           Answer 0%nat (sampleNet 0%nat "2019-06-03"); Click ]).
  vm_compute. reflexivity.
Defined.

(** ** A run in flight and the run in one step *)

Lemma settle_collectRows (net : Provider) (st : State) (b s : Z) (events : list Event) :
  forall (ev : Event) (k : nat) (rows : list Row),
    settle net k (2 * List.length (ev :: events))
      {| cells := st;
         inFlight := [ {| entryVal := b; exitVal := s; runEvents := ev :: events;
                          runEntry := None; runRows := rows |} ] |}
    = Some {| cells :=
                setLoading false
                  match (rows' <- collectRows Dashboard.fetchOHLC net b s (ev :: events) k rows ;;
                         Ok (rows' ++ aggregates rows')) with
                  | Ok out => setResults (Some out) st
                  | Throw m => setError (Some m) st
                  end;
              inFlight := [] |}.
Proof.
  induction events as [|ev' events IH]; intros ev k rows.
  - cbn [List.length Nat.mul Nat.add settle inFlight runEvents happen nth_error resume
         runEntry entryVal exitVal runRows collectRows cells firstn skipn app].
    destruct (Dashboard.fetchOHLC (net k (date ev)) (date ev) b) as [buyP|m];
      cbn [bind]; [|reflexivity].
    cbn [settle inFlight runEvents happen nth_error resume runEntry entryVal exitVal
         runRows cells firstn skipn app].
    destruct (Dashboard.fetchOHLC (net (S k) (date ev)) (date ev) s) as [sellP|m];
      cbn [bind]; reflexivity.
  - replace (2 * List.length (ev :: ev' :: events))%nat
      with (S (S (2 * List.length (ev' :: events)))) by (cbn [List.length]; lia).
    cbn [settle inFlight runEvents happen nth_error resume runEntry entryVal exitVal
         runRows collectRows cells firstn skipn app].
    destruct (Dashboard.fetchOHLC (net k (date ev)) (date ev) b) as [buyP|m];
      cbn [bind]; [|reflexivity].
    cbn [settle inFlight runEvents happen nth_error resume runEntry entryVal exitVal
         runRows cells firstn skipn app].
    destruct (Dashboard.fetchOHLC (net (S k) (date ev)) (date ev) s) as [sellP|m];
      cbn [bind]; [|reflexivity].
    apply IH.
Qed.

(** From a component at rest, a press of the button followed by the
    answers of the provider, one for each request the run makes, leaves the
    cells as [runBacktest] run in one step leaves them, and no run in
    flight: two answers per event are enough.  And a pick in a select
    before an answer is as good as after it: it changes neither what the
    run works with nor what it stores. *)
Theorem run_in_flight :
  (forall (net : Provider) (c : Component),
     inFlight c = [] ->
     loading (cells c) = false ->
     match happen Click c with
     | Some c' => settle net 0 (2 * List.length wwdcDates) c'
     | None => None
     end
     = Some {| cells := Dashboard.runBacktest net (cells c); inFlight := [] |})
  /\ (forall (value : string) (i : nat) (res : Response) (c : Component),
        session [PickBuy value; Answer i res] c = session [Answer i res; PickBuy value] c
        /\ session [PickSell value; Answer i res] c
           = session [Answer i res; PickSell value] c).
Proof.
  split.
  - intros net c Hnone Hload. cbn [happen]. rewrite Hload, Hnone. cbn [app].
    unfold startRun.
    rewrite (settle_collectRows net _ _ _ (tl wwdcDates) (hd {| year := 0; date := "" |} wwdcDates)).
    cbn [hd tl wwdcDates]. fold wwdcDates.
    unfold Dashboard.runBacktest, backtest. cbn [setError setLoading buy sell].
    destruct (collectRows Dashboard.fetchOHLC net (val (buy (cells c)))
                (val (sell (cells c))) wwdcDates 0 []) as [rows|m]; reflexivity.
  - intros value i res c. split; cbn [session happen].
    + unfold onBuyChange.
      destruct (findOffset buyOffsets value) as [o|];
        cbn [option_map withCells inFlight cells];
        (destruct (nth_error (inFlight c) i) as [r|]; [|reflexivity]);
        destruct (resume r res); reflexivity.
    + unfold onSellChange.
      destruct (findOffset sellOffsets value) as [o|];
        cbn [option_map withCells inFlight cells];
        (destruct (nth_error (inFlight c) i) as [r|]; [|reflexivity]);
        destruct (resume r res); reflexivity.
Qed.

Lemma run_in_flight_witness :
  match happen Click mounted with
  | Some c' => settle sampleNet 0 (2 * List.length wwdcDates) c'
  | None => None
  end
  = Some {| cells := Dashboard.runBacktest sampleNet initialState; inFlight := [] |}.
Proof.
  apply (proj1 run_in_flight sampleNet mounted); reflexivity.
Defined.

(** * The calendar behind the lookup *)

(** ** Day numbers and dates *)

Lemma DayFromYear_shift (y q : Z) :
  JSDate.DayFromYear (y + 400 * q) = (JSDate.DayFromYear y + 146097 * q)%Z.
Proof. unfold JSDate.DayFromYear. Z.div_mod_to_equations. lia. Qed.

Lemma InLeapYear_shift (y q : Z) :
  JSDate.InLeapYear (y + 400 * q) = JSDate.InLeapYear y.
Proof.
  unfold JSDate.InLeapYear.
  replace ((y + 400 * q) mod 4)%Z with (y mod 4)%Z by (Z.div_mod_to_equations; lia).
  replace ((y + 400 * q) mod 100)%Z with (y mod 100)%Z by (Z.div_mod_to_equations; lia).
  replace ((y + 400 * q) mod 400)%Z with (y mod 400)%Z by (Z.div_mod_to_equations; lia).
  reflexivity.
Qed.

Lemma mod100_mod4 (y : Z) : (y mod 100 = 0 -> y mod 4 = 0)%Z.
Proof. intros H. Z.div_mod_to_equations. lia. Qed.

Lemma mod400_mod100 (y : Z) : (y mod 400 = 0 -> y mod 100 = 0)%Z.
Proof. intros H. Z.div_mod_to_equations. lia. Qed.

Lemma DayFromYear_succ (y : Z) :
  JSDate.DayFromYear (y + 1)
  = (JSDate.DayFromYear y + (if JSDate.InLeapYear y then 366 else 365))%Z.
Proof.
  unfold JSDate.DayFromYear, JSDate.InLeapYear.
  assert (H4 : ((y + 1 - 1969) / 4 = (y - 1969) / 4 + (if y mod 4 =? 0 then 1 else 0))%Z)
    by (destruct (Z.eqb_spec (y mod 4) 0); Z.div_mod_to_equations; lia).
  assert (H100 : ((y + 1 - 1901) / 100
                  = (y - 1901) / 100 + (if y mod 100 =? 0 then 1 else 0))%Z)
    by (destruct (Z.eqb_spec (y mod 100) 0); Z.div_mod_to_equations; lia).
  assert (H400 : ((y + 1 - 1601) / 400
                  = (y - 1601) / 400 + (if y mod 400 =? 0 then 1 else 0))%Z)
    by (destruct (Z.eqb_spec (y mod 400) 0); Z.div_mod_to_equations; lia).
  rewrite H4, H100, H400.
  destruct (Z.eqb_spec (y mod 4) 0) as [E4|E4];
    destruct (Z.eqb_spec (y mod 100) 0) as [E100|E100];
    destruct (Z.eqb_spec (y mod 400) 0) as [E400|E400];
    cbn [andb orb negb]; try lia;
    try (apply mod100_mod4 in E100; contradiction);
    apply mod400_mod100 in E400; try contradiction;
    apply mod100_mod4 in E400; contradiction.
Qed.

Lemma DayFromYear_mono (y y' : Z) :
  (y <= y')%Z -> (JSDate.DayFromYear y <= JSDate.DayFromYear y')%Z.
Proof. intros H. unfold JSDate.DayFromYear. Z.div_mod_to_equations. lia. Qed.

Ltac month_cases m :=
  let H := fresh in
  assert (H : (m = 1 \/ m = 2 \/ m = 3 \/ m = 4 \/ m = 5 \/ m = 6 \/ m = 7
               \/ m = 8 \/ m = 9 \/ m = 10 \/ m = 11 \/ m = 12)%Z) by lia;
  destruct H as [-> | [-> | [-> | [-> | [-> | [-> | [-> | [-> | [-> | [-> | [-> | ->]]]]]]]]]]].

Ltac eval_calendar :=
  repeat match goal with
    | H : context [JSDate.daysBefore ?l ?m] |- _ =>
        let v := eval vm_compute in (JSDate.daysBefore l m) in
        change (JSDate.daysBefore l m) with v in H
    | H : context [JSDate.monthLength ?l ?m] |- _ =>
        let v := eval vm_compute in (JSDate.monthLength l m) in
        change (JSDate.monthLength l m) with v in H
    | |- context [JSDate.daysBefore ?l ?m] =>
        let v := eval vm_compute in (JSDate.daysBefore l m) in
        change (JSDate.daysBefore l m) with v
    | |- context [JSDate.monthLength ?l ?m] =>
        let v := eval vm_compute in (JSDate.monthLength l m) in
        change (JSDate.monthLength l m) with v
    end.

Lemma eraGregorian_step (a : Z) :
  (0 <= a)%Z -> (a + 1 < 146097)%Z ->
  (a - a / 1460 + a / 36524 - a / 146096
   <= a + 1 - (a + 1) / 1460 + (a + 1) / 36524 - (a + 1) / 146096)%Z.
Proof.
  intros H0 H1. destruct (Z.eq_dec (a + 1) 146096) as [E|E].
  - replace a with 146095%Z by lia. vm_compute. discriminate.
  - Z.div_mod_to_equations. lia.
Qed.

Lemma eraGregorian_mono (n : nat) :
  forall a : Z,
    (0 <= a)%Z -> (a + Z.of_nat n < 146097)%Z ->
    (a - a / 1460 + a / 36524 - a / 146096
     <= a + Z.of_nat n - (a + Z.of_nat n) / 1460 + (a + Z.of_nat n) / 36524
        - (a + Z.of_nat n) / 146096)%Z.
Proof.
  induction n as [|n IH]; intros a H0 H1.
  - rewrite Z.add_0_r. lia.
  - rewrite Nat2Z.inj_succ in *.
    pose proof (IH a H0 ltac:(lia)) as Hn.
    pose proof (eraGregorian_step (a + Z.of_nat n) ltac:(lia) ltac:(lia)) as Hs.
    replace (a + Z.succ (Z.of_nat n))%Z with (a + Z.of_nat n + 1)%Z by lia. lia.
Qed.

Lemma yearOfEra_mono (a b : Z) :
  (0 <= a <= b)%Z -> (b < 146097)%Z -> (yearOfEra a <= yearOfEra b)%Z.
Proof.
  intros Hab Hb. unfold yearOfEra. apply Z.div_le_mono; [lia|].
  pose proof (eraGregorian_mono (Z.to_nat (b - a)) a ltac:(lia)) as H.
  rewrite Z2Nat.id in H by lia. replace (a + (b - a))%Z with b in H by lia.
  apply H. lia.
Qed.

Lemma yearsOkFrom_spec (n : nat) :
  forall k j : Z,
    yearsOkFrom k n = true -> (0 <= j < Z.of_nat n)%Z -> yearOk (k + j) = true.
Proof.
  induction n as [|n IH]; intros k j H Hj; [lia|].
  cbn [yearsOkFrom] in H. apply andb_prop in H as [H0 Hrest].
  destruct (Z.eq_dec j 0) as [->|Hne].
  - now rewrite Z.add_0_r.
  - replace (k + j)%Z with (k + 1 + (j - 1))%Z by lia.
    apply IH; [exact Hrest|lia].
Qed.

Lemma years_of_era_ok : yearsOkFrom 0 400 = true.
Proof. vm_compute. reflexivity. Qed.

Lemma yearOk_facts (k : Z) :
  (0 <= k < 400)%Z ->
  yearOfEra (eraStart k) = k
  /\ yearOfEra (eraStart (k + 1) - 1) = k
  /\ (JSDate.DayFromYear k + 59 + (if JSDate.InLeapYear k then 1 else 0)
      = eraStart k - 719468)%Z
  /\ (eraStart (k + 1) - eraStart k
      = 365 + (if JSDate.InLeapYear (k + 1) then 1 else 0))%Z.
Proof.
  intros Hk. pose proof (yearsOkFrom_spec 400 0 k years_of_era_ok ltac:(lia)) as H.
  cbn [Z.add] in H. unfold yearOk in H.
  repeat (apply andb_prop in H as [H ?]).
  repeat match goal with E : (_ =? _)%Z = true |- _ => apply Z.eqb_eq in E end.
  auto.
Qed.

Lemma eraStart_mono (a b : Z) : (a <= b)%Z -> (eraStart a <= eraStart b)%Z.
Proof. intros H. unfold eraStart. Z.div_mod_to_equations. lia. Qed.

(** The year of the era of a day: its first day is not after the day, and
    that of the next year is. *)
Lemma yearOfEra_spec (doe : Z) :
  (0 <= doe < 146097)%Z ->
  (0 <= yearOfEra doe < 400)%Z
  /\ (eraStart (yearOfEra doe) <= doe < eraStart (yearOfEra doe + 1))%Z.
Proof.
  intros Hdoe.
  assert (H0 : (0 <= yearOfEra doe)%Z).
  { pose proof (yearOfEra_mono 0 doe ltac:(lia) ltac:(lia)) as H.
    change (yearOfEra 0) with 0%Z in H. exact H. }
  assert (H399 : (yearOfEra doe <= 399)%Z).
  { pose proof (yearOfEra_mono doe 146096 ltac:(lia) ltac:(lia)) as H.
    change (yearOfEra 146096) with 399%Z in H. exact H. }
  split; [lia|]. set (k := yearOfEra doe) in *. split.
  - destruct (Z_le_gt_dec (eraStart k) doe) as [Hle|Hgt]; [exact Hle|exfalso].
    assert (Hk1 : (1 <= k)%Z).
    { destruct (Z_le_gt_dec 1 k) as [?|?]; [assumption|].
      replace k with 0%Z in Hgt by lia. change (eraStart 0) with 0%Z in Hgt. lia. }
    destruct (yearOk_facts (k - 1) ltac:(lia)) as (_ & Hend & _ & _).
    replace (k - 1 + 1)%Z with k in Hend by lia.
    pose proof (eraStart_mono k 400 ltac:(lia)) as Hcap.
    change (eraStart 400) with 146097%Z in Hcap.
    pose proof (yearOfEra_mono doe (eraStart k - 1) ltac:(lia) ltac:(lia)) as Hm.
    fold k in Hm. lia.
  - destruct (Z_lt_le_dec doe (eraStart (k + 1))) as [Hlt|Hge]; [exact Hlt|exfalso].
    destruct (Z.eq_dec k 399) as [E|E].
    + rewrite E in Hge. change (eraStart (399 + 1)) with 146097%Z in Hge. lia.
    + destruct (yearOk_facts (k + 1) ltac:(lia)) as (Hstart & _ & _ & _).
      pose proof (yearOfEra_mono (eraStart (k + 1)) doe) as Hm.
      assert (H1 : (0 <= eraStart (k + 1))%Z).
      { pose proof (eraStart_mono 0 (k + 1) ltac:(lia)) as H.
        change (eraStart 0) with 0%Z in H. exact H. }
      specialize (Hm ltac:(lia) ltac:(lia)). fold k in Hm. lia.
Qed.

(** Every day number is the day number of the date [civil] gives it, and
    that date is a day of the calendar. *)
Lemma civil_valid (day y m d : Z) :
  JSDate.civil day = (y, m, d) ->
  (1 <= m <= 12)%Z
  /\ (1 <= d <= JSDate.monthLength (JSDate.InLeapYear y) m)%Z
  /\ dayNumber y m d = day.
Proof.
  unfold JSDate.civil. cbv zeta.
  set (z := (day + 719468)%Z). set (era := (z / 146097)%Z).
  set (doe := (z - era * 146097)%Z).
  change ((doe - doe / 1460 + doe / 36524 - doe / 146096) / 365)%Z with (yearOfEra doe).
  set (k := yearOfEra doe).
  set (doy := (doe - (365 * k + k / 4 - k / 100))%Z).
  set (mp := ((5 * doy + 2) / 153)%Z).
  intros H.
  assert (Hy : y = (k + era * 400
                    + (if (if mp <? 10 then mp + 3 else mp - 9) <=? 2 then 1 else 0))%Z)
    by congruence.
  assert (Hm : m = (if mp <? 10 then mp + 3 else mp - 9)%Z) by congruence.
  assert (Hd : d = (doy - (153 * mp + 2) / 5 + 1)%Z) by congruence.
  clear H.
  assert (Hdoe : (0 <= doe < 146097)%Z)
    by (unfold doe, era; Z.div_mod_to_equations; lia).
  destruct (yearOfEra_spec doe Hdoe) as [Hk [Hlo Hhi]]. fold k in Hk, Hlo, Hhi.
  destruct (yearOk_facts k Hk) as (_ & _ & Hbase & Hlen).
  assert (Hk400 : (k / 400 = 0)%Z) by (Z.div_mod_to_equations; lia).
  assert (Hdoy : doy = (doe - eraStart k)%Z) by (unfold doy, eraStart; lia).
  assert (Hday : day = (era * 146097 + eraStart k + doy - 719468)%Z)
    by (unfold doe, z in *; lia).
  assert (Hmpd : (153 * mp <= 5 * doy + 2 < 153 * mp + 153)%Z)
    by (unfold mp; Z.div_mod_to_equations; lia).
  clearbody mp. clearbody doy. clearbody k. clearbody doe.
  assert (Hbit : (0 <= (if JSDate.InLeapYear (k + 1) then 1 else 0) <= 1)%Z)
    by (destruct (JSDate.InLeapYear (k + 1)); lia).
  assert (Hmp : (0 <= mp <= 11)%Z) by lia.
  pose proof (DayFromYear_shift k era) as Hshift.
  pose proof (InLeapYear_shift k era) as Hleap.
  pose proof (DayFromYear_shift (k + 1) era) as Hshift1.
  pose proof (InLeapYear_shift (k + 1) era) as Hleap1.
  pose proof (DayFromYear_succ k) as Hsucc.
  unfold dayNumber.
  assert (Hcases : (mp = 0 \/ mp = 1 \/ mp = 2 \/ mp = 3 \/ mp = 4 \/ mp = 5 \/ mp = 6
                    \/ mp = 7 \/ mp = 8 \/ mp = 9 \/ mp = 10 \/ mp = 11)%Z) by lia.
  subst y m d.
  destruct Hcases as [-> | [-> | [-> | [-> | [-> | [-> | [-> | [-> | [-> | [-> | [-> | ->]]]]]]]]]]];
    repeat (match goal with
            | |- context [(?a <? ?b)%Z] =>
                let v := eval vm_compute in (a <? b)%Z in change (a <? b)%Z with v
            | |- context [(?a <=? ?b)%Z] =>
                let v := eval vm_compute in (a <=? b)%Z in change (a <=? b)%Z with v
            end; cbv iota);
    try replace (k + era * 400 + 0)%Z with (k + 400 * era)%Z by lia;
    try replace (k + era * 400 + 1)%Z with (k + 1 + 400 * era)%Z by lia;
    rewrite ?Hleap, ?Hleap1, ?Hshift, ?Hshift1;
    destruct (JSDate.InLeapYear k); destruct (JSDate.InLeapYear (k + 1));
    eval_calendar; Z.div_mod_to_equations; lia.
Qed.

Lemma dayOfYear_bounds (leap : bool) (m d : Z) :
  (1 <= m <= 12)%Z ->
  (1 <= d <= JSDate.monthLength leap m)%Z ->
  (0 <= JSDate.daysBefore leap m + d - 1 < (if leap then 366 else 365))%Z.
Proof.
  intros Hm Hd. month_cases m; destruct leap; eval_calendar; lia.
Qed.

Lemma dayOfYear_inj (leap : bool) (m d m' d' : Z) :
  (1 <= m <= 12)%Z ->
  (1 <= d <= JSDate.monthLength leap m)%Z ->
  (1 <= m' <= 12)%Z ->
  (1 <= d' <= JSDate.monthLength leap m')%Z ->
  (JSDate.daysBefore leap m + d = JSDate.daysBefore leap m' + d')%Z ->
  m = m' /\ d = d'.
Proof.
  intros Hm Hd Hm' Hd' H.
  month_cases m; month_cases m'; destruct leap; eval_calendar; lia.
Qed.

Lemma dayNumber_bounds (y m d : Z) :
  (1 <= m <= 12)%Z ->
  (1 <= d <= JSDate.monthLength (JSDate.InLeapYear y) m)%Z ->
  (JSDate.DayFromYear y <= dayNumber y m d < JSDate.DayFromYear (y + 1))%Z.
Proof.
  intros Hm Hd. rewrite DayFromYear_succ. unfold dayNumber.
  pose proof (dayOfYear_bounds (JSDate.InLeapYear y) m d Hm Hd). lia.
Qed.

Lemma dayNumber_inj (y m d y' m' d' : Z) :
  (1 <= m <= 12)%Z ->
  (1 <= d <= JSDate.monthLength (JSDate.InLeapYear y) m)%Z ->
  (1 <= m' <= 12)%Z ->
  (1 <= d' <= JSDate.monthLength (JSDate.InLeapYear y') m')%Z ->
  dayNumber y m d = dayNumber y' m' d' ->
  y = y' /\ m = m' /\ d = d'.
Proof.
  intros Hm Hd Hm' Hd' H.
  pose proof (dayNumber_bounds y m d Hm Hd) as Hb.
  pose proof (dayNumber_bounds y' m' d' Hm' Hd') as Hb'.
  assert (Hy : y = y').
  { destruct (Z.lt_trichotomy y y') as [Hlt | [Heq | Hgt]]; [|exact Heq|].
    - pose proof (DayFromYear_mono (y + 1) y' ltac:(lia)). lia.
    - pose proof (DayFromYear_mono (y' + 1) y ltac:(lia)). lia. }
  subst y'. split; [reflexivity|].
  apply (dayOfYear_inj (JSDate.InLeapYear y)); try assumption.
  unfold dayNumber in H. lia.
Qed.

(** [civil] undoes [dayNumber] on the days of the calendar. *)
Lemma civil_dayNumber (y m d : Z) :
  (1 <= m <= 12)%Z ->
  (1 <= d <= JSDate.monthLength (JSDate.InLeapYear y) m)%Z ->
  JSDate.civil (dayNumber y m d) = (y, m, d).
Proof.
  intros Hm Hd.
  destruct (JSDate.civil (dayNumber y m d)) as [[y' m'] d'] eqn:Hc.
  destruct (civil_valid _ _ _ _ Hc) as (Hm' & Hd' & Hday).
  destruct (dayNumber_inj y' m' d' y m d Hm' Hd' Hm Hd Hday) as (-> & -> & ->).
  reflexivity.
Qed.

(** ** Dates as strings *)

Lemma digitVal_inv (c : ascii) (v : Z) :
  digitVal c = Some v -> (0 <= v <= 9)%Z /\ JSDate.digitChar v = c.
Proof.
  intros H.
  destruct c as [[] [] [] [] [] [] [] []]; vm_compute in H; try discriminate;
    injection H as <-; (split; [lia|reflexivity]).
Qed.

Lemma digitVal_digitChar (n : Z) : digitVal (JSDate.digitChar n) = Some (n mod 10)%Z.
Proof.
  unfold JSDate.digitChar.
  pose proof (Z.mod_pos_bound n 10 ltac:(lia)) as Hr.
  generalize dependent (n mod 10)%Z. intros r Hr.
  assert (H : (r = 0 \/ r = 1 \/ r = 2 \/ r = 3 \/ r = 4 \/ r = 5 \/ r = 6
               \/ r = 7 \/ r = 8 \/ r = 9)%Z) by lia.
  destruct H as [-> | [-> | [-> | [-> | [-> | [-> | [-> | [-> | [-> | ->]]]]]]]]];
    reflexivity.
Qed.

Lemma digitChar_mod (n v : Z) : (n mod 10 = v)%Z -> JSDate.digitChar n = JSDate.digitChar v.
Proof.
  intros <-. unfold JSDate.digitChar. now rewrite Z.mod_mod by lia.
Qed.

(** The text of a date: four digits of year, two of month, two of day. *)
Lemma isoDate_text (s : string) (y m d : Z) :
  isoDate s = Some (y, m, d) ->
  (0 <= y <= 9999)%Z
  /\ (1 <= m <= 12)%Z
  /\ (1 <= d <= JSDate.monthLength (JSDate.InLeapYear y) m)%Z
  /\ s = (JSDate.pad 4 y ++ "-" ++ JSDate.pad 2 m ++ "-" ++ JSDate.pad 2 d)%string.
Proof.
  intros H.
  destruct s as [|y1 [|y2 [|y3 [|y4 [|s1 [|m1 [|m2 [|s2 [|d1 [|d2 [|x rest]]]]]]]]]]];
    try discriminate H.
  unfold isoDate in H.
  destruct (digitVal y1) as [a|] eqn:Ha; [|discriminate].
  destruct (digitVal y2) as [b|] eqn:Hb; [|discriminate].
  destruct (digitVal y3) as [c|] eqn:Hc; [|discriminate].
  destruct (digitVal y4) as [e|] eqn:He; [|discriminate].
  destruct (digitVal m1) as [f|] eqn:Hf; [|discriminate].
  destruct (digitVal m2) as [g|] eqn:Hg; [|discriminate].
  destruct (digitVal d1) as [h|] eqn:Hh; [|discriminate].
  destruct (digitVal d2) as [i|] eqn:Hi; [|discriminate].
  cbv zeta in H.
  remember (1000 * a + 100 * b + 10 * c + e)%Z as yy eqn:Ey.
  remember (10 * f + g)%Z as mm eqn:Em.
  remember (10 * h + i)%Z as dd eqn:Ed.
  match type of H with
  | (if ?cond then _ else _) = _ => destruct cond eqn:Hcond; [|discriminate]
  end.
  injection H as <- <- <-.
  repeat (apply andb_prop in Hcond as [Hcond ?]).
  apply Ascii.eqb_eq in Hcond. subst s1.
  match goal with Hs : Ascii.eqb s2 _ = true |- _ => apply Ascii.eqb_eq in Hs; subst s2 end.
  repeat match goal with Hle : (_ <=? _)%Z = true |- _ => apply Z.leb_le in Hle end.
  apply digitVal_inv in Ha as [Ra <-], Hb as [Rb <-], Hc as [Rc <-], He as [Re <-],
                        Hf as [Rf <-], Hg as [Rg <-], Hh as [Rh <-], Hi as [Ri <-].
  repeat split; try lia.
  subst yy mm dd. cbn [JSDate.pad append].
  set (yy := (1000 * a + 100 * b + 10 * c + e)%Z).
  rewrite (digitChar_mod (yy / 10 / 10 / 10) a), (digitChar_mod (yy / 10 / 10) b),
    (digitChar_mod (yy / 10) c), (digitChar_mod yy e),
    (digitChar_mod ((10 * f + g) / 10) f), (digitChar_mod (10 * f + g) g),
    (digitChar_mod ((10 * h + i) / 10) h), (digitChar_mod (10 * h + i) i);
    try reflexivity; subst yy; Z.div_mod_to_equations; lia.
Qed.

Lemma isoDate_format (y m d : Z) :
  (0 <= y <= 9999)%Z ->
  (1 <= m <= 12)%Z ->
  (1 <= d <= JSDate.monthLength (JSDate.InLeapYear y) m)%Z ->
  isoDate (JSDate.pad 4 y ++ "-" ++ JSDate.pad 2 m ++ "-" ++ JSDate.pad 2 d)%string
  = Some (y, m, d).
Proof.
  intros Hy Hm Hd.
  assert (Hd31 : (d <= 31)%Z).
  { revert Hd. unfold JSDate.monthLength.
    destruct (m =? 2)%Z; [destruct (JSDate.InLeapYear y)|
      destruct ((m =? 4) || (m =? 6) || (m =? 9) || (m =? 11))%Z]; lia. }
  cbn [JSDate.pad append isoDate]. rewrite !digitVal_digitChar. cbv zeta.
  replace (1000 * ((y / 10 / 10 / 10) mod 10) + 100 * ((y / 10 / 10) mod 10)
           + 10 * ((y / 10) mod 10) + y mod 10)%Z with y
    by (Z.div_mod_to_equations; lia).
  replace (10 * ((m / 10) mod 10) + m mod 10)%Z with m by (Z.div_mod_to_equations; lia).
  replace (10 * ((d / 10) mod 10) + d mod 10)%Z with d by (Z.div_mod_to_equations; lia).
  cbn [Ascii.eqb Bool.eqb andb].
  destruct (1 <=? m)%Z eqn:E1; [|apply Z.leb_gt in E1; lia].
  destruct (m <=? 12)%Z eqn:E2; [|apply Z.leb_gt in E2; lia].
  destruct (1 <=? d)%Z eqn:E3; [|apply Z.leb_gt in E3; lia].
  destruct (d <=? JSDate.monthLength (JSDate.InLeapYear y) m)%Z eqn:E4;
    [|apply Z.leb_gt in E4; lia].
  reflexivity.
Qed.

Lemma dayNumber_range (y m d : Z) :
  (0 <= y <= 9999)%Z ->
  (1 <= m <= 12)%Z ->
  (1 <= d <= JSDate.monthLength (JSDate.InLeapYear y) m)%Z ->
  (-719528 <= dayNumber y m d < 2932897)%Z.
Proof.
  intros Hy Hm Hd. pose proof (dayNumber_bounds y m d Hm Hd) as Hb.
  pose proof (DayFromYear_mono 0 y ltac:(lia)) as H0.
  pose proof (DayFromYear_mono (y + 1) 10000 ltac:(lia)) as H1.
  change (JSDate.DayFromYear 0) with (-719528)%Z in H0.
  change (JSDate.DayFromYear 10000) with 2932897%Z in H1. lia.
Qed.

Lemma isoDay_of_day (t y m d : Z) :
  (0 <= y <= 9999)%Z ->
  (1 <= m <= 12)%Z ->
  (1 <= d <= JSDate.monthLength (JSDate.InLeapYear y) m)%Z ->
  (t / 86400 = dayNumber y m d)%Z ->
  JSDate.isoDay t
  = Some (JSDate.pad 4 y ++ "-" ++ JSDate.pad 2 m ++ "-" ++ JSDate.pad 2 d)%string.
Proof.
  intros Hy Hm Hd Ht.
  pose proof (dayNumber_range y m d Hy Hm Hd) as Hr.
  unfold JSDate.isoDay.
  assert (Hv : JSDate.validTime (t * 1000) = true).
  { unfold JSDate.validTime. apply Z.leb_le. rewrite <- Ht in Hr.
    Z.div_mod_to_equations. lia. }
  rewrite Hv. unfold JSDate.Day, JSDate.msPerDay.
  replace 86400000%Z with (86400 * 1000)%Z by reflexivity.
  rewrite Z.div_mul_cancel_r by lia. rewrite Ht, (civil_dayNumber y m d Hm Hd).
  unfold JSDate.isoYear.
  destruct (0 <=? y)%Z eqn:E1; [|apply Z.leb_gt in E1; lia].
  destruct (y <=? 9999)%Z eqn:E2; [|apply Z.leb_gt in E2; lia].
  reflexivity.
Qed.

Lemma isoDay_length (t : Z) (s : string) :
  JSDate.isoDay t = Some s -> String.length s = 10%nat.
Proof.
  unfold JSDate.isoDay. destruct (JSDate.validTime (t * 1000)); [|discriminate].
  destruct (JSDate.civil (JSDate.Day (t * 1000))) as [[y m] d].
  intros H. injection H as <-. unfold JSDate.isoYear.
  destruct ((0 <=? y)%Z && (y <=? 9999)%Z); [reflexivity|].
  destruct (y <? 0)%Z; reflexivity.
Qed.

Lemma isoDay_isoDate (t : Z) (s : string) (y m d : Z) :
  JSDate.isoDay t = Some s ->
  isoDate s = Some (y, m, d) ->
  (t / 86400 = dayNumber y m d)%Z.
Proof.
  unfold JSDate.isoDay. destruct (JSDate.validTime (t * 1000)); [|discriminate].
  unfold JSDate.Day, JSDate.msPerDay.
  replace 86400000%Z with (86400 * 1000)%Z by reflexivity.
  rewrite Z.div_mul_cancel_r by lia.
  destruct (JSDate.civil (t / 86400)) as [[y' m'] d'] eqn:Hc.
  destruct (civil_valid _ _ _ _ Hc) as (Hm' & Hd' & Hday).
  intros H Hs.
  assert (Hss : s = JSDate.slice10
                      (JSDate.isoYear y' ++ "-" ++ JSDate.pad 2 m' ++ "-"
                       ++ JSDate.pad 2 d' ++ "T")%string)
    by (injection H as E; symmetry; exact E).
  clear H. unfold JSDate.isoYear in Hss.
  destruct ((0 <=? y')%Z && (y' <=? 9999)%Z) eqn:Hy'.
  - apply andb_prop in Hy' as [E1 E2]. apply Z.leb_le in E1, E2.
    assert (Hfmt : s = (JSDate.pad 4 y' ++ "-" ++ JSDate.pad 2 m' ++ "-"
                        ++ JSDate.pad 2 d')%string) by exact Hss.
    rewrite Hfmt, isoDate_format in Hs by (try assumption; lia).
    assert (Heq : (y', m', d') = (y, m, d)) by congruence.
    assert (Hy : y' = y) by congruence.
    assert (Hm : m' = m) by congruence.
    assert (Hd : d' = d) by congruence.
    subst. symmetry. exact Hday.
  - exfalso. subst s. destruct (y' <? 0)%Z; lazy in Hs; discriminate Hs.
Qed.

(** ** The request window and the session it is for *)

Lemma epoch_day (date : string) (y m d t : Z) :
  isoDate date = Some (y, m, d) ->
  ((86400 * dayNumber y m d <= t < 86400 * dayNumber y m d + 86400)%Z
   <-> JSDate.isoDay t = Some date).
Proof.
  intros Hd. destruct (isoDate_text _ _ _ _ Hd) as (Hy & Hm & Hdd & Htext).
  split.
  - intros Ht. rewrite Htext. apply isoDay_of_day; try assumption.
    generalize dependent (dayNumber y m d). intros D Ht.
    Z.div_mod_to_equations. lia.
  - intros Ht. pose proof (isoDay_isoDate _ _ _ _ _ Ht Hd) as Hday.
    generalize dependent (dayNumber y m d). intros D Hday.
    Z.div_mod_to_equations. lia.
Qed.

Lemma toEpoch_follows (parse : DateParser) (date : string) (y m d : Z) :
  followsDateTimeFormat parse ->
  isoDate date = Some (y, m, d) ->
  toEpoch parse date = Some (86400 * dayNumber y m d)%Z.
Proof.
  intros Hparse Hd. unfold toEpoch. rewrite (Hparse date y m d Hd).
  cbn [option_map]. f_equal. unfold JSDate.msPerDay.
  generalize (dayNumber y m d). intros D. Z.div_mod_to_equations. lia.
Qed.

Lemma toEpoch_day (parse : DateParser) (date : string) (y m d e t : Z) :
  followsDateTimeFormat parse ->
  isoDate date = Some (y, m, d) ->
  toEpoch parse date = Some e ->
  ((e <= t < e + 86400)%Z <-> JSDate.isoDay t = Some date).
Proof.
  intros Hparse Hd He. rewrite (toEpoch_follows parse date y m d Hparse Hd) in He.
  injection He as <-. now apply epoch_day.
Qed.

Lemma toEpoch_inj (parse : DateParser) (d1 d2 : string) (ymd1 ymd2 : Z * Z * Z) :
  followsDateTimeFormat parse ->
  isoDate d1 = Some ymd1 ->
  isoDate d2 = Some ymd2 ->
  toEpoch parse d1 = toEpoch parse d2 ->
  d1 = d2.
Proof.
  intros Hparse H1 H2 He.
  destruct ymd1 as [[y1 m1] dd1]. destruct ymd2 as [[y2 m2] dd2].
  pose proof (toEpoch_follows parse d1 _ _ _ Hparse H1) as E1.
  pose proof (toEpoch_follows parse d2 _ _ _ Hparse H2) as E2.
  rewrite E1, E2 in He.
  assert (Hsame : (86400 * dayNumber y1 m1 dd1 = 86400 * dayNumber y2 m2 dd2)%Z)
    by congruence.
  assert (Ht : (86400 * dayNumber y1 m1 dd1 <= 86400 * dayNumber y1 m1 dd1
                < 86400 * dayNumber y1 m1 dd1 + 86400)%Z) by lia.
  pose proof (proj1 (epoch_day d1 _ _ _ _ H1) Ht) as I1.
  rewrite Hsame in Ht.
  pose proof (proj1 (epoch_day d2 _ _ _ _ H2) Ht) as I2.
  rewrite Hsame in I1. congruence.
Qed.

(** *** The two sample engines *)

Lemma substring_all (s : string) : substring 0 (String.length s) s = s.
Proof. induction s as [|c s IH]; cbn [substring String.length]; [reflexivity|now f_equal]. Qed.

Lemma substring_prefix (a b : string) :
  substring 0 (String.length a) (a ++ b) = a.
Proof.
  induction a as [|c a IH]; cbn [append String.length substring].
  - now destruct b.
  - now f_equal.
Qed.

Lemma substring_suffix (a b : string) :
  substring (String.length a) (String.length b) (a ++ b) = b.
Proof.
  induction a as [|c a IH]; cbn [append String.length substring].
  - apply substring_all.
  - exact IH.
Qed.

Lemma length_append (a b : string) :
  String.length (a ++ b) = (String.length a + String.length b)%nat.
Proof.
  induction a as [|c a IH]; cbn [append String.length Nat.add]; [reflexivity|now f_equal].
Qed.

Lemma isoDate_length (s : string) (ymd : Z * Z * Z) :
  isoDate s = Some ymd -> String.length s = 10%nat.
Proof.
  destruct ymd as [[y m] d]. intros H.
  apply isoDate_text in H as (_ & _ & _ & ->). reflexivity.
Qed.

Lemma date_then_midnight (date : string) (ymd : Z * Z * Z) :
  isoDate date = Some ymd ->
  JSDate.slice10 (date ++ "T00:00:00Z") = date
  /\ afterDate (date ++ "T00:00:00Z") = "T00:00:00Z".
Proof.
  intros H. pose proof (isoDate_length date ymd H) as Hlen.
  unfold JSDate.slice10, afterDate. rewrite length_append, Hlen. split.
  - rewrite <- Hlen. apply substring_prefix.
  - rewrite <- Hlen at 1. apply (substring_suffix date "T00:00:00Z").
Qed.

Lemma isoDate_dateFields (s : string) (y m d : Z) :
  isoDate s = Some (y, m, d) ->
  dateFields s = Some (y, m, d) /\ (1 <= m <= 12)%Z /\ (1 <= d <= 31)%Z.
Proof.
  intros H. pose proof (isoDate_text s y m d H) as (_ & Hm & Hd & _).
  assert (H31 : (JSDate.monthLength (JSDate.InLeapYear y) m <= 31)%Z).
  { unfold JSDate.monthLength.
    destruct (m =? 2)%Z; [destruct (JSDate.InLeapYear y)|
      destruct ((m =? 4) || (m =? 6) || (m =? 9) || (m =? 11))%Z]; lia. }
  split; [|lia].
  destruct s as [|y1 [|y2 [|y3 [|y4 [|s1 [|m1 [|m2 [|s2 [|d1 [|d2 [|x rest]]]]]]]]]]];
    try discriminate H.
  unfold isoDate in H. unfold dateFields.
  destruct (digitVal y1) as [a|]; [|discriminate].
  destruct (digitVal y2) as [b|]; [|discriminate].
  destruct (digitVal y3) as [c|]; [|discriminate].
  destruct (digitVal y4) as [e|]; [|discriminate].
  destruct (digitVal m1) as [f|]; [|discriminate].
  destruct (digitVal m2) as [g|]; [|discriminate].
  destruct (digitVal d1) as [h|]; [|discriminate].
  destruct (digitVal d2) as [i|]; [|discriminate].
  cbv zeta in H.
  destruct (Ascii.eqb s1 "-" && Ascii.eqb s2 "-") eqn:Hsep.
  - cbn [andb] in H.
    match type of H with
    | (if ?cond then _ else _) = _ => destruct cond; [exact H|discriminate]
    end.
  - cbn [andb] in H. discriminate.
Qed.

Lemma rollingParse_follows : followsDateTimeFormat rollingParse.
Proof.
  intros date y m d H. unfold rollingParse.
  destruct (date_then_midnight date _ H) as [-> ->].
  destruct (isoDate_dateFields date y m d H) as (-> & Hm & Hd).
  rewrite String.eqb_refl.
  replace (1 <=? m)%Z with true by (symmetry; apply Z.leb_le; lia).
  replace (m <=? 12)%Z with true by (symmetry; apply Z.leb_le; lia).
  replace (1 <=? d)%Z with true by (symmetry; apply Z.leb_le; lia).
  replace (d <=? 31)%Z with true by (symmetry; apply Z.leb_le; lia).
  reflexivity.
Qed.

Lemma strictParse_follows : followsDateTimeFormat strictParse.
Proof.
  intros date y m d H. unfold strictParse.
  destruct (date_then_midnight date _ H) as [-> ->].
  now rewrite H, String.eqb_refl.
Qed.

(** For a date [YYYY-MM-DD] of the calendar, the instants of the day that
    [toEpoch] names, and only those, are stamped with the date by the
    lookup, so that no two such dates have the same epoch, whatever the
    engine.  A date that is not of the calendar is another matter: of
    [2019-02-29] one engine makes the epoch of [2019-03-01] and another
    NaN. *)
Theorem toEpoch_isoDay :
  (forall (parse : DateParser) (date : string) (y m d : Z),
     followsDateTimeFormat parse ->
     isoDate date = Some (y, m, d) ->
     exists e : Z,
       toEpoch parse date = Some e
       /\ forall t : Z, (e <= t < e + 86400)%Z <-> JSDate.isoDay t = Some date)
  /\ (forall (parse : DateParser) (d1 d2 : string) (ymd1 ymd2 : Z * Z * Z),
        followsDateTimeFormat parse ->
        isoDate d1 = Some ymd1 ->
        isoDate d2 = Some ymd2 ->
        toEpoch parse d1 = toEpoch parse d2 ->
        d1 = d2)
  /\ (followsDateTimeFormat rollingParse
      /\ toEpoch rollingParse "2019-02-29" = Some 1551398400%Z
      /\ toEpoch rollingParse "2019-03-01" = Some 1551398400%Z)
  /\ (followsDateTimeFormat strictParse
      /\ toEpoch strictParse "2019-02-29" = None).
Proof.
  split; [|split; [exact toEpoch_inj|split]].
  - intros parse date y m d Hparse Hd. exists (86400 * dayNumber y m d)%Z.
    split; [now apply toEpoch_follows|]. intros t. now apply epoch_day.
  - split; [exact rollingParse_follows|]. split; vm_compute; reflexivity.
  - split; [exact strictParse_follows|]. vm_compute. reflexivity.
Qed.

Lemma toEpoch_isoDay_witness :
  exists e : Z,
    toEpoch rollingParse "2019-06-03" = Some e
    /\ ((e <= 1559568600 < e + 86400)%Z <-> JSDate.isoDay 1559568600 = Some "2019-06-03").
Proof.
  destruct (proj1 toEpoch_isoDay rollingParse "2019-06-03" 2019 6 3
              rollingParse_follows eq_refl) as (e & He & Ht).
  exists e. split; [exact He|apply Ht].
Defined.

(** For a date [YYYY-MM-DD] of the calendar, the close that the lookup
    returns for offset 0 is that of the first session of the series within
    the 24 hours from [toEpoch(date)]. *)
Theorem fetchOHLC_day_of (parse : DateParser) (date : string) (y m d e : Z)
    (pre : list Z) (t : Z) (post : list Z) (cs : list (option JS.number)) :
  followsDateTimeFormat parse ->
  isoDate date = Some (y, m, d) ->
  toEpoch parse date = Some e ->
  Forall (fun t' => (Z.abs t' <= 8640000000000)%Z /\ ~ (e <= t' < e + 86400)%Z) pre ->
  (e <= t < e + 86400)%Z ->
  (len pre < len cs)%Z ->
  Dashboard.fetchOHLC (chartOf (pre ++ t :: post) cs) date 0 = Dashboard.price cs (len pre).
Proof.
  intros Hparse Hd He Hpre Ht Hlen.
  assert (Habs : absent date pre = true).
  { unfold absent. apply forallb_forall. intros t' Hin.
    rewrite Forall_forall in Hpre. destruct (Hpre t' Hin) as [Hv Hout].
    unfold otherDay. destruct (JSDate.isoDay t') as [day|] eqn:Hday.
    - apply negb_true_iff. apply String.eqb_neq. intros ->.
      apply Hout. now apply (toEpoch_day parse date y m d e t' Hparse Hd He).
    - unfold JSDate.isoDay, JSDate.validTime in Hday.
      destruct (Z.abs (t' * 1000) <=? 8640000000000000)%Z eqn:E.
      + destruct (JSDate.civil (JSDate.Day (t' * 1000))) as [[? ?] ?]. discriminate.
      + apply Z.leb_gt in E. lia. }
  assert (Hfind : findIndex date (pre ++ t :: post) = Ok (len pre)).
  { unfold findIndex.
    rewrite (findIndexFrom_first date pre t post 0 Habs);
      [reflexivity|now apply (toEpoch_day parse date y m d e t Hparse Hd He)]. }
  rewrite (fetchOHLC_located _ cs date _ 0 Hfind).
  pose proof (len_nonneg pre).
  rewrite targetIdx_inside by lia. cbn [bind]. now rewrite Z.add_0_r.
Qed.

Lemma fetchOHLC_day_of_witness :
  Dashboard.fetchOHLC (chartOf ([1559309400] ++ 1559568600 :: [1592573400])%Z sampleCloses)
    "2019-06-03" 0
  = Dashboard.price sampleCloses (len [1559309400%Z]).
Proof.
  apply (fetchOHLC_day_of rollingParse "2019-06-03" 2019 6 3 1559520000 [1559309400%Z]
           1559568600 [1592573400%Z] sampleCloses).
  - exact rollingParse_follows.
  - reflexivity.
  - reflexivity.
  - constructor; [|constructor]. lia.
  - lia.
  - reflexivity.
Defined.

(** For a date [YYYY-MM-DD] of the calendar, every session that the lookup
    can match lies inside the window the request asks for, forty days from
    either end of it. *)
Theorem matched_session_in_window (parse : DateParser) (date : string) (y m d p1 p2 t : Z) :
  followsDateTimeFormat parse ->
  isoDate date = Some (y, m, d) ->
  period1 parse date = Some p1 ->
  period2 parse date = Some p2 ->
  JSDate.isoDay t = Some date ->
  (p2 - p1 = 80 * 86400)%Z
  /\ (p1 + 40 * 86400 <= t < p2 - 39 * 86400)%Z.
Proof.
  intros Hparse Hd. unfold period1, period2.
  destruct (toEpoch parse date) as [e|] eqn:He; [|discriminate].
  cbn [option_map]. intros H1 H2 Ht. injection H1 as <-. injection H2 as <-.
  apply (toEpoch_day parse date y m d e t Hparse Hd He) in Ht. lia.
Qed.

Lemma matched_session_in_window_witness :
  (1562976000 - 1556064000 = 80 * 86400)%Z
  /\ (1556064000 + 40 * 86400 <= 1559568600 < 1562976000 - 39 * 86400)%Z.
Proof.
  apply (matched_session_in_window rollingParse "2019-06-03" 2019 6 3
           1556064000 1562976000 1559568600);
    [exact rollingParse_follows|reflexivity..].
Defined.

(** ** The text of the request *)

Lemma showZ_inj (a b : Z) : showZ a = showZ b -> a = b.
Proof.
  unfold showZ. intros H. apply DecimalZ.to_int_inj.
  assert (Hnil : forall z, Z.to_int z <> Decimal.Pos Decimal.Nil
                           /\ Z.to_int z <> Decimal.Neg Decimal.Nil).
  { intros [|p|p]; cbn; split; try discriminate; intros E; injection E;
      apply DecimalPos.Unsigned.to_uint_nonnil. }
  pose proof (NilZero.isi (Z.to_int a) (proj1 (Hnil a)) (proj2 (Hnil a))) as Ha.
  pose proof (NilZero.isi (Z.to_int b) (proj1 (Hnil b)) (proj2 (Hnil b))) as Hb.
  rewrite H in Ha. congruence.
Qed.

Lemma noAmpersand_uint (u : Decimal.uint) :
  noAmpersand (NilEmpty.string_of_uint u) = true.
Proof. induction u; cbn [NilEmpty.string_of_uint noAmpersand]; auto. Qed.

Lemma noAmpersand_showZ (z : Z) : noAmpersand (showZ z) = true.
Proof.
  unfold showZ, NilZero.string_of_int, NilZero.string_of_uint.
  destruct (Z.to_int z) as [u|u]; destruct u; try reflexivity;
    cbn [noAmpersand Ascii.eqb Bool.eqb negb andb]; apply noAmpersand_uint.
Qed.

Lemma append_cancel_l (s a b : string) : (s ++ a = s ++ b)%string -> a = b.
Proof.
  induction s as [|c s IH]; cbn [append]; intros H; [exact H|].
  injection H as H. auto.
Qed.

Lemma append_ampersand_inj (a a' x x' : string) :
  noAmpersand a = true ->
  noAmpersand a' = true ->
  (a ++ String "&" x = a' ++ String "&" x')%string ->
  a = a' /\ x = x'.
Proof.
  revert a'. induction a as [|c a IH]; intros [|c' a'] Ha Ha' H; cbn [append] in H.
  - injection H as ->. now split.
  - injection H as <- _. cbn in Ha'. discriminate.
  - injection H as -> _. cbn in Ha. discriminate.
  - injection H as -> H. cbn [noAmpersand] in Ha, Ha'.
    apply andb_prop in Ha as [_ Ha], Ha' as [_ Ha'].
    destruct (IH a' Ha Ha' H) as [-> ->]. now split.
Qed.

(** Two dates [YYYY-MM-DD] of the calendar are asked for with the same URL
    only if they are the same date.  Of other strings this fails: every
    date that the engine cannot parse is asked for with the one URL whose
    periods read NaN, and an engine that counts [2019-02-29] as the day
    after 28 February asks for it with the URL of [2019-03-01]. *)
Theorem buildYahooChartURL_inj :
  (forall (parse : DateParser) (d1 d2 : string) (ymd1 ymd2 : Z * Z * Z),
     followsDateTimeFormat parse ->
     isoDate d1 = Some ymd1 ->
     isoDate d2 = Some ymd2 ->
     buildYahooChartURL parse d1 = buildYahooChartURL parse d2 ->
     d1 = d2)
  /\ (forall (parse : DateParser) (date : string),
        parse (date ++ "T00:00:00Z")%string = None ->
        buildYahooChartURL parse date = "/api/chart?period1=NaN&period2=NaN&interval=1d")
  /\ (followsDateTimeFormat rollingParse
      /\ buildYahooChartURL rollingParse "2019-02-29"
         = buildYahooChartURL rollingParse "2019-03-01").
Proof.
  split; [|split].
  - intros parse d1 d2 ymd1 ymd2 Hparse H1 H2 U.
    apply (toEpoch_inj parse d1 d2 ymd1 ymd2 Hparse H1 H2).
    destruct ymd1 as [[y1 m1] dd1]. destruct ymd2 as [[y2 m2] dd2].
    rewrite (toEpoch_follows parse d1 _ _ _ Hparse H1).
    rewrite (toEpoch_follows parse d2 _ _ _ Hparse H2).
    unfold buildYahooChartURL, period1, period2 in U.
    rewrite (toEpoch_follows parse d1 _ _ _ Hparse H1) in U.
    rewrite (toEpoch_follows parse d2 _ _ _ Hparse H2) in U.
    cbn [option_map showNumber] in U.
    apply append_cancel_l in U.
    apply append_ampersand_inj in U as [U _]; try apply noAmpersand_showZ.
    apply showZ_inj in U. f_equal. lia.
  - intros parse date H. unfold buildYahooChartURL, period1, period2, toEpoch.
    rewrite H. reflexivity.
  - split; [exact rollingParse_follows|]. vm_compute. reflexivity.
Qed.

Lemma buildYahooChartURL_inj_witness :
  buildYahooChartURL strictParse "2019-06-03"
  = "/api/chart?period1=1556064000&period2=1562976000&interval=1d"
  /\ "2019-06-03" = JSDate.slice10 "2019-06-03T13:30:00.000Z".
Proof.
  split; [vm_compute; reflexivity|].
  apply (proj1 buildYahooChartURL_inj strictParse "2019-06-03"
           (JSDate.slice10 "2019-06-03T13:30:00.000Z") (2019, 6, 3)%Z (2019, 6, 3)%Z).
  - exact strictParse_follows.
  - reflexivity.
  - reflexivity.
  - reflexivity.
Defined.

(** ** Dates that cannot be found *)

(** A date that is not written with ten characters is never found in any
    series: for such a date the lookup throws, whatever the provider
    answers. *)
Theorem unpadded_date_never_resolved (res : Response) (date : string) (offset : Z) :
  String.length date <> 10%nat ->
  (exists m, Dashboard.fetchOHLC res date offset = Throw m)
  /\ (exists m, DashboardV2.fetchOHLC res date offset = Throw m).
Proof.
  intros Hlen.
  assert (H22 : exists m, Dashboard.fetchOHLC res date offset = Throw m).
  { destruct (Dashboard.fetchOHLC res date offset) as [p|m] eqn:H; [|now exists m].
    exfalso. apply fetchOHLC_Ok_inv in H as (status & ts & cs & idx & _ & Hfind & Hidx & _).
    apply findIndexFrom_inv in Hfind as [[_ ->] | (pre & t & post & _ & _ & Ht & _)]; [lia|].
    apply isoDay_length in Ht. contradiction. }
  split; [exact H22|].
  pose proof (fetchOHLC_agree res date offset) as Hagree.
  destruct H22 as [m Hm]. rewrite Hm in Hagree.
  destruct (DashboardV2.fetchOHLC res date offset) as [p|m']; [contradiction|now exists m'].
Qed.

Lemma unpadded_date_never_resolved_witness :
  (exists m, Dashboard.fetchOHLC (chartOf sampleTimes sampleCloses) "2019-6-3" 0 = Throw m)
  /\ (exists m, DashboardV2.fetchOHLC (chartOf sampleTimes sampleCloses) "2019-6-3" 0 = Throw m).
Proof.
  apply (unpadded_date_never_resolved (chartOf sampleTimes sampleCloses) "2019-6-3" 0).
  cbn. discriminate.
Defined.

(** ** What a run asks of the provider *)

Lemma collectRows_footprint (fetchOHLC : Response -> string -> Z -> Result JS.number)
    (b s : Z) (net1 net2 : Provider) (events : list Event) :
  forall (k : nat) (rows : list Row),
    (forall (j : nat) (ev : Event),
       (k <= j < k + 2 * List.length events)%nat ->
       In ev events -> net1 j (date ev) = net2 j (date ev)) ->
    collectRows fetchOHLC net1 b s events k rows
    = collectRows fetchOHLC net2 b s events k rows.
Proof.
  induction events as [|ev events IH]; intros k rows H; cbn [collectRows].
  - reflexivity.
  - cbn [List.length] in H.
    rewrite (H k ev ltac:(lia) (or_introl eq_refl)).
    rewrite (H (S k) ev ltac:(lia) (or_introl eq_refl)).
    destruct (fetchOHLC (net2 k (date ev)) (date ev) b); [|reflexivity].
    cbn [bind].
    destruct (fetchOHLC (net2 (S k) (date ev)) (date ev) s); [|reflexivity].
    cbn [bind]. apply IH. intros j ev' Hj Hin. apply H; [lia|now right].
Qed.

(** A run looks at no more than the first twelve answers of the provider,
    and only at answers for the dates of the configured events: providers
    that agree on those leave the same state. *)
Theorem runBacktest_footprint (net1 net2 : Provider) (st : State) :
  (forall (j : nat) (ev : Event),
     (j < 12)%nat -> In ev wwdcDates -> net1 j (date ev) = net2 j (date ev)) ->
  Dashboard.runBacktest net1 st = Dashboard.runBacktest net2 st.
Proof.
  intros H. unfold Dashboard.runBacktest, backtest.
  rewrite (collectRows_footprint Dashboard.fetchOHLC _ _ net1 net2 wwdcDates 0 []);
    [reflexivity|].
  intros j ev Hj Hin. apply H; [cbn in Hj; lia|exact Hin].
Qed.

Lemma runBacktest_footprint_witness :
  Dashboard.runBacktest sampleNet initialState
  = Dashboard.runBacktest
      (fun j d => if (j <? 12)%nat then sampleNet j d else Rejected "offline")
      initialState.
Proof.
  apply runBacktest_footprint.
  intros j ev Hj Hin. apply Nat.ltb_lt in Hj. now rewrite Hj.
Defined.

(** ** Signs of the aggregates *)

Lemma binary_round_aux_signPlus (mx ex : Z) (lx : location) :
  signPlus (binary_round_aux JS.prec JS.emax false mx ex lx) = true.
Proof.
  unfold binary_round_aux.
  destruct (shr_fexp JS.prec JS.emax mx ex lx) as [mrs e'].
  destruct (shr_fexp JS.prec JS.emax
              (round_nearest_even (shr_m mrs) (loc_of_shr_record mrs)) e' loc_Exact)
    as [mrs' e''].
  destruct (shr_m mrs'); [reflexivity| |reflexivity].
  destruct (e'' <=? JS.emax - JS.prec)%Z; reflexivity.
Qed.

Lemma signPlus_notNegative (x : JS.number) : signPlus x = true -> notNegative x = true.
Proof. destruct x as [[]|[]| |[] m e]; cbn; congruence. Qed.

Lemma ofZ_signPlus (z : Z) : (0 <= z)%Z -> signPlus (JS.ofZ z) = true.
Proof.
  intros Hz. unfold JS.ofZ, binary_normalize. destruct z as [|p|p]; [reflexivity| |lia].
  unfold binary_round.
  destruct (shl_align p 0 (fexp JS.prec JS.emax (Z.pos (digits2_pos p) + 0))) as [mz ez].
  apply binary_round_aux_signPlus.
Qed.

Lemma ofRatio_signPlus (n d : Z) : signPlus (JS.ofRatio false n d) = true.
Proof.
  unfold JS.ofRatio. destruct n as [|p|p]; [reflexivity| |].
  - destruct (SFdiv_core_binary JS.prec JS.emax (Z.pos p) 0 d 0) as [[mz ez] lz].
    apply binary_round_aux_signPlus.
  - destruct (SFdiv_core_binary JS.prec JS.emax (Z.neg p) 0 d 0) as [[mz ez] lz].
    apply binary_round_aux_signPlus.
Qed.

Lemma div_signPlus (x y : JS.number) :
  signPlus x = true -> signPlus y = true -> signPlus (JS.div x y) = true.
Proof.
  unfold JS.div, SFdiv.
  destruct x as [[]|[]| |[] mx ex]; destruct y as [[]|[]| |[] my ey];
    intros Hx Hy; try discriminate Hx; try discriminate Hy; try reflexivity;
    cbn [xorb].
  destruct (SFdiv_core_binary JS.prec JS.emax (Z.pos mx) ex (Z.pos my) ey) as [[mz ez] lz].
  apply binary_round_aux_signPlus.
Qed.

Lemma mul_signPlus (x y : JS.number) :
  signPlus x = true -> signPlus y = true -> signPlus (JS.mul x y) = true.
Proof.
  unfold JS.mul, SFmul.
  destruct x as [[]|[]| |[] mx ex]; destruct y as [[]|[]| |[] my ey];
    intros Hx Hy; try discriminate Hx; try discriminate Hy; try reflexivity;
    cbn [xorb]. apply binary_round_aux_signPlus.
Qed.

Lemma roundTo_signPlus (f : Z) (x : JS.number) :
  signPlus x = true -> signPlus (JS.roundTo f x) = true.
Proof.
  unfold JS.roundTo, JS.toFixed.
  destruct x as [[]|[]| |[] m e]; intros Hx; try discriminate Hx; try reflexivity.
  destruct (JS.atLeast1e21 m e); [reflexivity|].
  cbn [JS.toNumber]. apply ofRatio_signPlus.
Qed.

Lemma sqrt_notNegative (x : JS.number) : notNegative (JS.sqrt x) = true.
Proof.
  unfold JS.sqrt, SFsqrt. destruct x as [[]|[]| |[] m e]; try reflexivity.
  destruct (SFsqrt_core_binary JS.prec JS.emax (Z.pos m) e) as [[mz ez] lz].
  apply signPlus_notNegative, binary_round_aux_signPlus.
Qed.

Lemma roundTo_notNegative (f : Z) (x : JS.number) :
  notNegative x = true -> notNegative (JS.roundTo f x) = true.
Proof.
  destruct x as [[]|[]| |[] m e]; intros Hx; try discriminate Hx; try reflexivity.
  apply signPlus_notNegative, roundTo_signPlus. reflexivity.
Qed.

(** Whatever the returns, the StDev row and the WinRate row are never
    negative: each is NaN, a zero or a positive number. *)
Theorem deviation_and_winRate_not_negative (rows : list Row) :
  exists avg sd w,
    map ret (aggregates rows) = [avg; sd; w]
    /\ notNegative sd = true
    /\ notNegative w = true.
Proof.
  eexists _, _, _. split; [reflexivity|]. split.
  - apply roundTo_notNegative, sqrt_notNegative.
  - apply signPlus_notNegative, roundTo_signPlus, mul_signPlus.
    + unfold winRate. apply div_signPlus; apply ofZ_signPlus; apply len_nonneg.
    + apply ofZ_signPlus. lia.
Qed.

(** ** The error banner *)

(** A run that succeeds takes the error banner down, whatever error was
    shown before.  A run that fails shows it, in the v2 variant always and
    in the mounted component unless the message of the error is empty. *)
Theorem error_banner_after_run (net : Provider) (st : State) :
  (forall out,
     backtest Dashboard.fetchOHLC net (val (buy st)) (val (sell st)) wwdcDates = Ok out ->
     showsError (Dashboard.runBacktest net st) = false)
  /\ (forall m,
        backtest Dashboard.fetchOHLC net (val (buy st)) (val (sell st)) wwdcDates = Throw m ->
        showsError (Dashboard.runBacktest net st) = negb (String.eqb m ""))
  /\ (forall m,
        backtest DashboardV2.fetchOHLC net (val (buy st)) (val (sell st)) wwdcDates = Throw m ->
        showsError (DashboardV2.runBacktest net st) = true).
Proof.
  repeat apply conj.
  - intros out H. now rewrite (runBacktest_returned net st out H).
  - intros m H. now rewrite (runBacktest_thrown net st m H).
  - intros m H. unfold DashboardV2.runBacktest. rewrite H.
    unfold showsError. cbn [setLoading setError error].
    destruct (String.eqb m "") eqn:E; [reflexivity|]. now rewrite E.
Qed.

Lemma error_banner_after_run_witness :
  showsError (Dashboard.runBacktest sampleNet (Dashboard.runBacktest downNet initialState))
  = false
  /\ showsError (Dashboard.runBacktest (fun _ _ => Rejected "") initialState)
     = negb (String.eqb "" "")
  /\ showsError (DashboardV2.runBacktest (fun _ _ => Rejected "") initialState) = true.
Proof.
  split; [|split].
  - assert (H : exists out,
               backtest Dashboard.fetchOHLC sampleNet
                 (val (buy (Dashboard.runBacktest downNet initialState)))
                 (val (sell (Dashboard.runBacktest downNet initialState))) wwdcDates = Ok out)
      by (eexists; vm_compute; reflexivity).
    destruct H as [out H].
    exact (proj1 (error_banner_after_run sampleNet
                    (Dashboard.runBacktest downNet initialState)) out H).
  - apply (proj1 (proj2 (error_banner_after_run (fun _ _ => Rejected "") initialState)) "").
    vm_compute. reflexivity.
  - apply (proj2 (proj2 (error_banner_after_run (fun _ _ => Rejected "") initialState)) "").
    vm_compute. reflexivity.
Defined.
